(** * voicemessaging-wa: the FastAPI wrappers around the WhatsApp Go service

    A shallow embedding of [whatsapp_api.py] (single session) and
    [whatsapp_api_multisession.py] (one session per phone number), and the
    properties of their identifier normalisation, outcome translation,
    chat aggregation, legacy endpoints and health probe.

    Modelling conventions.
    - A Python [str] is the list of its code points ([pystr]); [py "..."]
      writes an ASCII literal.  Comparison of two [str] is lexicographic on
      code points, as in CPython.
    - The regular expression classes [\s] and [\d] are the Unicode-aware
      ones CPython applies to [str] patterns.
    - A route handler is the Python coroutine itself: its result is the value
      it returns or the exception it raises.  What FastAPI does with that
      value afterwards (response_model validation, serialisation) is outside
      the model.
    - The Go service is an oracle from requests to outcomes; handlers run in
      a monad that records every request sent to it. *)

From Stdlib Require Import List String Ascii NArith ZArith Bool Arith Lia Permutation.
Import ListNotations.

Local Open Scope list_scope.

Set Implicit Arguments.

(** ** Python strings *)

Definition pystr := list N.

Fixpoint py (s : string) : pystr :=
  match s with
  | EmptyString => []
  | String a rest => N_of_ascii a :: py rest
  end.
Arguments py s%_string.

Definition pystr_eqb (a b : pystr) : bool :=
  if list_eq_dec N.eq_dec a b then true else false.

(** [a.startswith(p)] *)
Fixpoint startswith (p a : pystr) : bool :=
  match p, a with
  | [], _ => true
  | _ :: _, [] => false
  | x :: p', y :: a' => N.eqb x y && startswith p' a'
  end.

(** [needle in hay] for two [str] *)
Fixpoint contains (needle hay : pystr) : bool :=
  startswith needle hay ||
  match hay with
  | [] => false
  | _ :: hay' => contains needle hay'
  end.

(** [a > b] for two [str]: lexicographic on code points, a proper prefix
    being smaller. *)
Fixpoint str_gt (a b : pystr) : bool :=
  match a, b with
  | [], _ => false
  | _ :: _, [] => true
  | x :: a', y :: b' =>
      match N.compare x y with
      | Gt => true
      | Lt => false
      | Eq => str_gt a' b'
      end
  end.

(** ** The character classes of [re] on [str] patterns *)

Definition in_range (lo len c : N) : bool :=
  (N.leb lo c && N.ltb c (lo + len))%N.

(** [\s]: the characters for which [str.isspace] holds. *)
Definition re_space (c : N) : bool :=
  (in_range 0x09 5 c || in_range 0x1c 5 c || N.eqb c 0x85 || N.eqb c 0xa0
   || N.eqb c 0x1680 || in_range 0x2000 11 c || in_range 0x2028 2 c
   || N.eqb c 0x202f || N.eqb c 0x205f || N.eqb c 0x3000)%N.

(** Starts of the ten-character runs of Unicode general category Nd
    (Unicode 14.0, the database of CPython 3.11). *)
Definition decimal_runs : list N :=
  [0x30; 0x660; 0x6f0; 0x7c0; 0x966; 0x9e6; 0xa66; 0xae6; 0xb66; 0xbe6;
   0xc66; 0xce6; 0xd66; 0xde6; 0xe50; 0xed0; 0xf20; 0x1040; 0x1090; 0x17e0;
   0x1810; 0x1946; 0x19d0; 0x1a80; 0x1a90; 0x1b50; 0x1bb0; 0x1c40; 0x1c50;
   0xa620; 0xa8d0; 0xa900; 0xa9d0; 0xa9f0; 0xaa50; 0xabf0; 0xff10; 0x104a0;
   0x10d30; 0x11066; 0x110f0; 0x11136; 0x111d0; 0x112f0; 0x11450; 0x114d0;
   0x11650; 0x116c0; 0x11730; 0x118e0; 0x11950; 0x11c50; 0x11d50; 0x11da0;
   0x16a60; 0x16ac0; 0x16b50; 0x1e140; 0x1e2f0; 0x1e950; 0x1fbf0]%N.

(** [\d]: any Unicode decimal digit; the mathematical digits
    U+1D7CE..U+1D7FF form one run of fifty. *)
Definition re_digit (c : N) : bool :=
  existsb (fun lo => in_range lo 10 c) decimal_runs || in_range 0x1d7ce 50 c.

(** [[1-9]] *)
Definition re_1_9 (c : N) : bool := in_range 0x31 9 c.

(** ** Exceptions and results *)

(** The subclasses of [httpx.RequestError]. *)
Inductive request_error : Type :=
  | ConnectError | ReadError | WriteError | CloseError
  | ConnectTimeout | ReadTimeout | WriteTimeout | PoolTimeout
  | LocalProtocolError | RemoteProtocolError
  | ProxyError | UnsupportedProtocol | DecodingError | TooManyRedirects.

Inductive exn : Type :=
  | HTTPException (status_code : Z) (detail : pystr)
  | RequestError (e : request_error)
  | KeyError (key : pystr)
  | AttributeError (attr : pystr)
  | TypeError
  | JSONDecodeError
  | OtherException (name : pystr).

Inductive result (A : Type) : Type :=
  | Ok (a : A)
  | Raise (e : exn).
Arguments Ok {A} a.
Arguments Raise {A} e.

Definition rbind {A B} (r : result A) (k : A -> result B) : result B :=
  match r with
  | Ok a => k a
  | Raise e => Raise e
  end.

(** ** JSON values and the objects exchanged with the Go service *)

(** A scalar JSON value. *)
Inductive jval : Type :=
  | VNull
  | VBool (b : bool)
  | VInt (n : Z)
  | VStr (s : pystr).

(** A JSON object with scalar members, in member order. *)
Definition jdict := list (pystr * jval).

Fixpoint jdict_get (key : pystr) (d : jdict) : option jval :=
  match d with
  | [] => None
  | (k, v) :: d' => if pystr_eqb k key then Some v else jdict_get key d'
  end.

(** A member of a JSON object that may be missing, [null], or a value. *)
Inductive member (A : Type) : Type :=
  | Absent
  | Null
  | Val (a : A).
Arguments Absent {A}.
Arguments Null {A}.
Arguments Val {A} a.

(** The [content] object of a message: [{"text": ..., "type": ...}]. *)
Record Content : Type := mkContent {
  text : member pystr;
  type : option pystr
}.

(** One entry of the [chats] dictionary built by [get_chats]. *)
Record ChatSummary : Type := mkChatSummary {
  chat_id : pystr;
  is_group : bool;
  latest_message : option pystr;   (* [None] is Python's [None] *)
  latest_timestamp : pystr;
  unread_count : nat
}.

(** A Python [dict] keyed by [str]: an association list in insertion order;
    assigning to an existing key keeps the key's position. *)
Definition dict (V : Type) := list (pystr * V).

Fixpoint dict_get {V} (key : pystr) (d : dict V) : option V :=
  match d with
  | [] => None
  | (k, v) :: d' => if pystr_eqb k key then Some v else dict_get key d'
  end.

Fixpoint dict_set {V} (key : pystr) (v : V) (d : dict V) : dict V :=
  match d with
  | [] => [(key, v)]
  | (k, v0) :: d' =>
      if pystr_eqb k key then (k, v) :: d' else (k, v0) :: dict_set key v d'
  end.

Definition dict_values {V} (d : dict V) : list V := map snd d.


(** ** Chat aggregation: the two loops of [get_chats]

    Both files run the same two loops; they differ in where a message keeps
    its fields and in how the latest message's text is rendered.  The loops
    are written once over the accessors, and each file supplies its own. *)

Section ChatAggregation.

Variable Msg : Type.
(** [message["source"]["chat"]] or [message["chat_id"]], and so on. *)
Variable msg_chat : Msg -> pystr.
Variable msg_is_group : Msg -> bool.
Variable msg_timestamp : Msg -> pystr.
Variable msg_is_read : Msg -> bool.
Variable msg_is_from_me : Msg -> bool.
(** The expression stored under ["latest_message"]. *)
Variable msg_latest_text : Msg -> result (option pystr).

(** The dictionary literal assigned to [chats[chat_id]]. *)
Definition new_entry (message : Msg) : result ChatSummary :=
  rbind (msg_latest_text message) (fun latest =>
  Ok {| chat_id := msg_chat message;
        is_group := msg_is_group message;
        latest_message := latest;
        latest_timestamp := msg_timestamp message;
        unread_count := 0 |}).

(** [chat_id not in chats or
     message["timestamp"] > chats[chat_id]["latest_timestamp"]] *)
Definition is_newer (message : Msg) (chats : dict ChatSummary) : bool :=
  match dict_get (msg_chat message) chats with
  | None => true
  | Some entry => str_gt (msg_timestamp message) (latest_timestamp entry)
  end.

(** First loop: group messages by chat and keep the latest of each. *)
Fixpoint latest_loop (messages : list Msg) (chats : dict ChatSummary)
  : result (dict ChatSummary) :=
  match messages with
  | [] => Ok chats
  | message :: rest =>
      if is_newer message chats
      then rbind (new_entry message) (fun entry =>
           latest_loop rest (dict_set (msg_chat message) entry chats))
      else latest_loop rest chats
  end.

(** [chats[chat_id]["unread_count"] += 1] *)
Definition bump_unread (chat : pystr) (chats : dict ChatSummary)
  : result (dict ChatSummary) :=
  match dict_get chat chats with
  | None => Raise (KeyError chat)
  | Some entry =>
      Ok (dict_set chat
            {| chat_id := chat_id entry;
               is_group := is_group entry;
               latest_message := latest_message entry;
               latest_timestamp := latest_timestamp entry;
               unread_count := S (unread_count entry) |} chats)
  end.

(** [not message["is_read"] and not message[...]["is_from_me"]] *)
Definition counts_as_unread (message : Msg) : bool :=
  negb (msg_is_read message) && negb (msg_is_from_me message).

(** Second loop: count unread messages. *)
Fixpoint unread_loop (messages : list Msg) (chats : dict ChatSummary)
  : result (dict ChatSummary) :=
  match messages with
  | [] => Ok chats
  | message :: rest =>
      if counts_as_unread message
      then rbind (bump_unread (msg_chat message) chats) (unread_loop rest)
      else unread_loop rest chats
  end.

(** From [chats = {}] to [list(chats.values())]. *)
Definition summarize (messages : list Msg) : result (list ChatSummary) :=
  rbind (latest_loop messages []) (fun chats =>
  rbind (unread_loop messages chats) (fun chats =>
  Ok (dict_values chats))).

End ChatAggregation.

(** The summary of chat [chat] in a returned list. *)
Definition summary_for (chat : pystr) (summaries : list ChatSummary)
  : option ChatSummary :=
  find (fun s => pystr_eqb (chat_id s) chat) summaries.

(** ** Talking to the Go service *)

Definition GO_SERVICE_URL : pystr := py "http://localhost:8080".

Inductive http_method : Type := GET | POST | DELETE.

(** One call on the [httpx.AsyncClient]. *)
Record Request : Type := mkRequest {
  method : http_method;
  url : pystr;
  json_arg : option jdict;      (* the [json=] argument *)
  params_arg : option jdict     (* the [params=] argument *)
}.

Section Gateway.

(** The message objects of the file at hand. *)
Variable Msg : Type.

(** A decoded JSON body: its scalar members and, when the keys are there,
    the lists under ["messages"] and ["sessions"]. *)
Record JsonBody : Type := mkJsonBody {
  members : jdict;
  messages : option (list Msg);
  sessions : option (list jdict)
}.

(** An [httpx.Response]: [json] is what [response.json()] returns, [None]
    standing for a body that is not JSON. *)
Record Response : Type := mkResponse {
  status_code : Z;
  body_text : pystr;
  json : option JsonBody
}.

(** What awaiting a client call gives: a response, an
    [httpx.RequestError], or some other exception of the client. *)
Inductive outcome : Type :=
  | Replied (response : Response)
  | Failed (e : request_error)
  | Crashed (name : pystr).

(** The Go service: the requests it has seen so far and the next one
    decide what comes back. *)
Definition backend := list Request -> Request -> outcome.

(** Values handed from one coroutine to another: plain dictionaries, or
    an instance of the pydantic model [SessionListResponse]. *)
Inductive pyobj : Type :=
  | Body (data : JsonBody)                    (* [response.json()] *)
  | Dict (items : list (pystr * pystr))       (* a literal of strings *)
  | Chats (chats : list ChatSummary)          (* [{"chats": [...]}] *)
  | SessionListResponse (sessions : list jdict).

(** Attribute access [obj.sessions]: a [dict] has no such attribute. *)
Definition getattr_sessions (obj : pyobj) : result (list jdict) :=
  match obj with
  | SessionListResponse l => Ok l
  | Body _ | Dict _ | Chats _ => Raise (AttributeError (py "sessions"))
  end.

(** A coroutine: it runs against a backend, extends the log of requests
    sent, and returns or raises. *)
Definition M (A : Type) := backend -> list Request -> result A * list Request.

Definition ret {A} (a : A) : M A := fun _ log => (Ok a, log).

Definition raise {A} (e : exn) : M A := fun _ log => (Raise e, log).

Definition bind {A B} (m : M A) (k : A -> M B) : M B :=
  fun be log =>
    match m be log with
    | (Ok a, log') => k a be log'
    | (Raise e, log') => (Raise e, log')
    end.

Definition lift {A} (r : result A) : M A := fun _ log => (r, log).

(** [await client.get(...)] and friends. *)
Definition send (req : Request) : M Response :=
  fun be log =>
    match be log req with
    | Replied response => (Ok response, log ++ [req])
    | Failed e => (Raise (RequestError e), log ++ [req])
    | Crashed name => (Raise (OtherException name), log ++ [req])
    end.

Definition client_get (u : pystr) : M Response :=
  send (mkRequest GET u None None).
Definition client_get_params (u : pystr) (p : jdict) : M Response :=
  send (mkRequest GET u None (Some p)).
Definition client_post (u : pystr) : M Response :=
  send (mkRequest POST u None None).
Definition client_post_json (u : pystr) (j : jdict) : M Response :=
  send (mkRequest POST u (Some j) None).
Definition client_delete (u : pystr) : M Response :=
  send (mkRequest DELETE u None None).

(** [response.json()] *)
Definition response_json (response : Response) : M JsonBody :=
  match json response with
  | Some data => ret data
  | None => raise JSONDecodeError
  end.

(** [return response.json()] *)
Definition return_json (response : Response) : M pyobj :=
  bind (response_json response) (fun data => ret (Body data)).

(** [try: ... except httpx.RequestError:
       raise HTTPException(status_code=503, detail="Go service unavailable")] *)
Definition try_except_RequestError {A} (body : M A) : M A :=
  fun be log =>
    match body be log with
    | (Raise (RequestError _), log') =>
        (Raise (HTTPException 503 (py "Go service unavailable")), log')
    | other => other
    end.

(** [try: ... except Exception: return fallback] *)
Definition try_except_Exception {A} (body : M A) (fallback : A) : M A :=
  fun be log =>
    match body be log with
    | (Raise _, log') => (Ok fallback, log')
    | other => other
    end.

End Gateway.

Arguments Replied {Msg} response.
Arguments Failed {Msg} e.
Arguments Crashed {Msg} name.
Arguments Dict {Msg} items.
Arguments Chats {Msg} chats.
Arguments SessionListResponse {Msg} sessions.
Arguments ret {Msg A} a.
Arguments raise {Msg A} e.
Arguments lift {Msg A} r.

Declare Scope gateway_scope.
Delimit Scope gateway_scope with gw.
Notation "x <- m ;; k" := (bind m (fun x => k))
  (at level 100, m at next level, right associativity) : gateway_scope.

Local Open Scope gateway_scope.

(** ** whatsapp_api.py *)

Module whatsapp_api.

Record MessageSource : Type := mkMessageSource {
  chat : pystr;
  sender : pystr;
  is_from_me : bool;
  is_group : bool
}.

Record Message : Type := mkMessage {
  id : pystr;
  timestamp : pystr;
  source : MessageSource;
  content : Content;
  is_read : bool
}.

Record ReadStatusUpdate : Type := mkReadStatusUpdate {
  message_id : pystr;
  read : bool
}.

Record PairPhoneRequest : Type := mkPairPhoneRequest {
  phone_number : pystr;
  show_notification : bool
}.

(** [model.dict()] *)
Definition ReadStatusUpdate_dict (r : ReadStatusUpdate) : jdict :=
  [(py "message_id", VStr (message_id r)); (py "read", VBool (read r))].

Definition PairPhoneRequest_dict (r : PairPhoneRequest) : jdict :=
  [(py "phone_number", VStr (phone_number r));
   (py "show_notification", VBool (show_notification r))].

Definition root : M Message (pyobj Message) :=
  ret (Dict [(py "message", py "WhatsApp API Wrapper"); (py "docs", py "/docs")]).

Definition health_check : M Message (pyobj Message) :=
  try_except_Exception
    (response <- client_get (GO_SERVICE_URL ++ py "/auth/status") ;;
     if Z.eqb (status_code response) 200
     then ret (Dict [(py "status", py "healthy"); (py "go_service", py "running")])
     else ret (Dict [(py "status", py "degraded"); (py "go_service", py "issues")]))
    (Dict [(py "status", py "unhealthy"); (py "go_service", py "down")]).

Definition get_qr_code : M Message (pyobj Message) :=
  try_except_RequestError
    (response <- client_get (GO_SERVICE_URL ++ py "/qr") ;;
     if Z.eqb (status_code response) 200 then return_json response
     else if Z.eqb (status_code response) 400
     then raise (HTTPException 400 (py "Already authenticated"))
     else if Z.eqb (status_code response) 408
     then raise (HTTPException 408 (py "QR generation timeout"))
     else raise (HTTPException 500 (py "Failed to get QR code"))).

Definition get_auth_status : M Message (pyobj Message) :=
  try_except_RequestError
    (response <- client_get (GO_SERVICE_URL ++ py "/auth/status") ;;
     if Z.eqb (status_code response) 200 then return_json response
     else raise (HTTPException 500 (py "Failed to get auth status"))).

Definition logout : M Message (pyobj Message) :=
  try_except_RequestError
    (response <- client_post (GO_SERVICE_URL ++ py "/auth/logout") ;;
     if Z.eqb (status_code response) 200
     then ret (Dict [(py "message", py "Logged out successfully")])
     else if Z.eqb (status_code response) 400
     then raise (HTTPException 400 (py "Not authenticated"))
     else raise (HTTPException 500 (py "Failed to logout"))).

Definition pair_phone (pair_request : PairPhoneRequest)
  : M Message (pyobj Message) :=
  try_except_RequestError
    (response <- client_post_json (GO_SERVICE_URL ++ py "/auth/pair-phone")
                   (PairPhoneRequest_dict pair_request) ;;
     if Z.eqb (status_code response) 200 then return_json response
     else if Z.eqb (status_code response) 400
     then
       let error_text := body_text response in
       if contains (py "Already authenticated") error_text
       then raise (HTTPException 400 (py "Already authenticated"))
       else if contains (py "Phone number is required") error_text
       then raise (HTTPException 400 (py "Phone number is required"))
       else raise (HTTPException 400 (py "Invalid phone number format"))
     else raise (HTTPException 500 (py "Failed to generate pairing code"))).

Definition get_messages : M Message (pyobj Message) :=
  try_except_RequestError
    (response <- client_get (GO_SERVICE_URL ++ py "/messages") ;;
     if Z.eqb (status_code response) 200 then return_json response
     else if Z.eqb (status_code response) 401
     then raise (HTTPException 401 (py "Not authenticated"))
     else raise (HTTPException 500 (py "Failed to get messages"))).

Definition get_chat_messages (chat_id : pystr) : M Message (pyobj Message) :=
  try_except_RequestError
    (response <- client_get (GO_SERVICE_URL ++ py "/messages/" ++ chat_id) ;;
     if Z.eqb (status_code response) 200 then return_json response
     else if Z.eqb (status_code response) 401
     then raise (HTTPException 401 (py "Not authenticated"))
     else raise (HTTPException 500 (py "Failed to get chat messages"))).

Definition update_read_status (read_status : ReadStatusUpdate)
  : M Message (pyobj Message) :=
  try_except_RequestError
    (response <- client_post_json (GO_SERVICE_URL ++ py "/messages/read-status")
                   (ReadStatusUpdate_dict read_status) ;;
     if Z.eqb (status_code response) 200
     then ret (Dict [(py "message", py "Read status updated successfully")])
     else if Z.eqb (status_code response) 401
     then raise (HTTPException 401 (py "Not authenticated"))
     else if Z.eqb (status_code response) 404
     then raise (HTTPException 404 (py "Message not found"))
     else if Z.eqb (status_code response) 400
     then raise (HTTPException 400 (py "Invalid request"))
     else raise (HTTPException 500 (py "Failed to update read status"))).

(** [message["content"]["text"] or f"[{message['content']['type']}]"]:
    the placeholder is built only when the text is missing a truth value. *)
Definition latest_text (message : Message) : result (option pystr) :=
  match text (content message) with
  | Absent => Raise (KeyError (py "text"))
  | Val (c :: s) => Ok (Some (c :: s))
  | Null | Val [] =>
      match type (content message) with
      | Some t => Ok (Some (py "[" ++ t ++ py "]"))
      | None => Raise (KeyError (py "type"))
      end
  end.

(** Lines 201-220: the chat summaries of a message list. *)
Definition chat_summaries (msgs : list Message) : result (list ChatSummary) :=
  summarize (fun m => chat (source m)) (fun m => is_group (source m))
            timestamp is_read (fun m => is_from_me (source m))
            latest_text msgs.

Definition get_chats : M Message (pyobj Message) :=
  try_except_RequestError
    (response <- client_get (GO_SERVICE_URL ++ py "/messages") ;;
     if Z.eqb (status_code response) 200
     then
       data <- response_json response ;;
       let messages := match messages data with Some l => l | None => [] end in
       chats <- lift (chat_summaries messages) ;;
       ret (Chats chats)
     else if Z.eqb (status_code response) 401
     then raise (HTTPException 401 (py "Not authenticated"))
     else raise (HTTPException 500 (py "Failed to get chats"))).

(** The operations that forward to the Go service and translate its
    answer, one per route. *)
Inductive operation : Type :=
  | op_get_qr_code
  | op_get_auth_status
  | op_logout
  | op_pair_phone (pair_request : PairPhoneRequest)
  | op_get_messages
  | op_get_chat_messages (chat_id : pystr)
  | op_update_read_status (read_status : ReadStatusUpdate)
  | op_get_chats.

Definition run (op : operation) : M Message (pyobj Message) :=
  match op with
  | op_get_qr_code => get_qr_code
  | op_get_auth_status => get_auth_status
  | op_logout => logout
  | op_pair_phone pair_request => pair_phone pair_request
  | op_get_messages => get_messages
  | op_get_chat_messages chat_id => get_chat_messages chat_id
  | op_update_read_status read_status => update_read_status read_status
  | op_get_chats => get_chats
  end.

End whatsapp_api.

(** ** whatsapp_api_multisession.py *)

Module whatsapp_api_multisession.

Record Message : Type := mkMessage {
  id : pystr;
  phone_number : pystr;
  chat_id : pystr;
  sender_id : pystr;
  content : Content;
  timestamp : pystr;
  is_from_me : bool;
  is_group : bool;
  is_read : bool;
  created_at : pystr
}.

Record CreateSessionRequest : Type := mkCreateSessionRequest {
  create_phone_number : pystr
}.

Record ReadStatusUpdate : Type := mkReadStatusUpdate {
  message_id : pystr;
  read : bool
}.

Record PairPhoneRequest : Type := mkPairPhoneRequest {
  pair_phone_number : pystr;
  show_notification : bool
}.

Definition ReadStatusUpdate_dict (r : ReadStatusUpdate) : jdict :=
  [(py "message_id", VStr (message_id r)); (py "read", VBool (read r))].

(** The class [[\s\-\(\)\+]] of the [re.sub] call. *)
Definition strip_class (c : N) : bool :=
  re_space c || N.eqb c 0x2d || N.eqb c 0x28 || N.eqb c 0x29 || N.eqb c 0x2b.

(** [re.sub(r'[\s\-\(\)\+]', '', phone)] *)
Definition re_sub_strip (phone : pystr) : pystr :=
  filter (fun c => negb (strip_class c)) phone.

(** [$]: at the end of the string, or just before a final newline. *)
Definition at_dollar (rest : pystr) : bool :=
  match rest with
  | [] => true
  | [c] => N.eqb c 0x0a
  | _ => false
  end.

(** [\d{k}$] on [s]: exactly [k] digits, then [$]. *)
Definition digits_then_end (s : pystr) (k : nat) : bool :=
  Nat.eqb (List.length (firstn k s)) k && forallb re_digit (firstn k s)
  && at_dollar (skipn k s).

(** [re.match(r'^\+[1-9]\d{1,14}$', phone)]: the greedy [\d{1,14}] tries
    fourteen digits first and backtracks down to one. *)
Definition re_match_international (phone : pystr) : bool :=
  match phone with
  | plus :: d :: rest =>
      N.eqb plus 0x2b && re_1_9 d
      && existsb (digits_then_end rest) (rev (seq 1 14))
  | _ => false
  end.

Definition validate_phone_number (phone : pystr) : result pystr :=
  let phone := re_sub_strip phone in
  let phone :=
    if negb (startswith (py "+") phone || startswith (py "00") phone)
    then py "+" ++ phone
    else if startswith (py "00") phone
    then py "+" ++ skipn 2 phone
    else phone in
  if negb (re_match_international phone)
  then Raise (HTTPException 400 (py "Invalid international phone number format"))
  else Ok phone.

Definition root : M Message (pyobj Message) :=
  ret (Dict [(py "message", py "Multi-Session WhatsApp API"); (py "docs", py "/docs")]).

Definition health_check : M Message (pyobj Message) :=
  try_except_Exception
    (response <- client_get (GO_SERVICE_URL ++ py "/sessions/list") ;;
     if Z.eqb (status_code response) 200
     then ret (Dict [(py "status", py "healthy"); (py "go_service", py "running")])
     else ret (Dict [(py "status", py "degraded"); (py "go_service", py "issues")]))
    (Dict [(py "status", py "unhealthy"); (py "go_service", py "down")]).

(** *** Session management *)

Definition create_session (request : CreateSessionRequest)
  : M Message (pyobj Message) :=
  phone <- lift (validate_phone_number (create_phone_number request)) ;;
  try_except_RequestError
    (response <- client_post_json (GO_SERVICE_URL ++ py "/sessions/create")
                   [(py "phone_number", VStr phone)] ;;
     if Z.eqb (status_code response) 200 then return_json response
     else raise (HTTPException 500 (py "Failed to create session"))).

Definition list_sessions : M Message (pyobj Message) :=
  try_except_RequestError
    (response <- client_get (GO_SERVICE_URL ++ py "/sessions/list") ;;
     if Z.eqb (status_code response) 200 then return_json response
     else raise (HTTPException 500 (py "Failed to list sessions"))).

Definition get_session_status (phone : pystr) : M Message (pyobj Message) :=
  phone <- lift (validate_phone_number phone) ;;
  try_except_RequestError
    (response <- client_get
                   (GO_SERVICE_URL ++ py "/sessions/" ++ phone ++ py "/status") ;;
     if Z.eqb (status_code response) 200 then return_json response
     else if Z.eqb (status_code response) 404
     then raise (HTTPException 404 (py "Session not found"))
     else raise (HTTPException 500 (py "Failed to get session status"))).

Definition connect_session (phone : pystr) : M Message (pyobj Message) :=
  phone <- lift (validate_phone_number phone) ;;
  try_except_RequestError
    (response <- client_post
                   (GO_SERVICE_URL ++ py "/sessions/" ++ phone ++ py "/connect") ;;
     if Z.eqb (status_code response) 200
     then ret (Dict [(py "message", py "Session connected successfully")])
     else if Z.eqb (status_code response) 404
     then raise (HTTPException 404 (py "Session not found"))
     else raise (HTTPException 500 (py "Failed to connect session"))).

Definition disconnect_session (phone : pystr) : M Message (pyobj Message) :=
  phone <- lift (validate_phone_number phone) ;;
  try_except_RequestError
    (response <- client_post
                   (GO_SERVICE_URL ++ py "/sessions/" ++ phone ++ py "/disconnect") ;;
     if Z.eqb (status_code response) 200
     then ret (Dict [(py "message", py "Session disconnected successfully")])
     else if Z.eqb (status_code response) 404
     then raise (HTTPException 404 (py "Session not found"))
     else raise (HTTPException 500 (py "Failed to disconnect session"))).

Definition delete_session (phone : pystr) : M Message (pyobj Message) :=
  phone <- lift (validate_phone_number phone) ;;
  try_except_RequestError
    (response <- client_delete
                   (GO_SERVICE_URL ++ py "/sessions/" ++ phone ++ py "/delete") ;;
     if Z.eqb (status_code response) 200
     then ret (Dict [(py "message", py "Session deleted successfully")])
     else if Z.eqb (status_code response) 404
     then raise (HTTPException 404 (py "Session not found"))
     else raise (HTTPException 500 (py "Failed to delete session"))).

(** *** Authentication, per session *)

Definition get_qr_code (phone : pystr) : M Message (pyobj Message) :=
  phone <- lift (validate_phone_number phone) ;;
  try_except_RequestError
    (response <- client_get
                   (GO_SERVICE_URL ++ py "/sessions/" ++ phone ++ py "/qr") ;;
     if Z.eqb (status_code response) 200 then return_json response
     else if Z.eqb (status_code response) 400
     then raise (HTTPException 400 (py "Already authenticated or QR not available"))
     else if Z.eqb (status_code response) 404
     then raise (HTTPException 404 (py "Session not found"))
     else raise (HTTPException 500 (py "Failed to get QR code"))).

Definition get_auth_status (phone : pystr) : M Message (pyobj Message) :=
  phone <- lift (validate_phone_number phone) ;;
  try_except_RequestError
    (response <- client_get
                   (GO_SERVICE_URL ++ py "/sessions/" ++ phone ++ py "/auth/status") ;;
     if Z.eqb (status_code response) 200 then return_json response
     else if Z.eqb (status_code response) 404
     then raise (HTTPException 404 (py "Session not found"))
     else raise (HTTPException 500 (py "Failed to get auth status"))).

Definition pair_phone (phone : pystr) (pair_request : option PairPhoneRequest)
  : M Message (pyobj Message) :=
  phone <- lift (validate_phone_number phone) ;;
  let request_data :=
    [(py "phone_number", VStr phone);
     (py "show_notification",
      VBool (match pair_request with
             | Some r => show_notification r
             | None => true
             end))] in
  try_except_RequestError
    (response <- client_post_json
                   (GO_SERVICE_URL ++ py "/sessions/" ++ phone ++ py "/auth/pair-phone")
                   request_data ;;
     if Z.eqb (status_code response) 200 then return_json response
     else if Z.eqb (status_code response) 400
     then
       let error_text := body_text response in
       if contains (py "Already authenticated") error_text
       then raise (HTTPException 400 (py "Already authenticated"))
       else raise (HTTPException 400 (py "Failed to generate pairing code"))
     else if Z.eqb (status_code response) 404
     then raise (HTTPException 404 (py "Session not found"))
     else raise (HTTPException 500 (py "Failed to generate pairing code"))).

(** *** Messages, per session *)

Definition get_messages (phone : pystr) (limit : Z) : M Message (pyobj Message) :=
  phone <- lift (validate_phone_number phone) ;;
  try_except_RequestError
    (response <- client_get_params
                   (GO_SERVICE_URL ++ py "/sessions/" ++ phone ++ py "/messages")
                   [(py "limit", VInt limit)] ;;
     if Z.eqb (status_code response) 200 then return_json response
     else if Z.eqb (status_code response) 404
     then raise (HTTPException 404 (py "Session not found"))
     else raise (HTTPException 500 (py "Failed to get messages"))).

Definition get_chat_messages (phone chat_id : pystr) (limit : Z)
  : M Message (pyobj Message) :=
  phone <- lift (validate_phone_number phone) ;;
  try_except_RequestError
    (response <- client_get_params
                   (GO_SERVICE_URL ++ py "/sessions/" ++ phone
                    ++ py "/messages/" ++ chat_id)
                   [(py "limit", VInt limit)] ;;
     if Z.eqb (status_code response) 200 then return_json response
     else if Z.eqb (status_code response) 404
     then raise (HTTPException 404 (py "Session or chat not found"))
     else raise (HTTPException 500 (py "Failed to get chat messages"))).

Definition update_read_status (phone : pystr) (read_status : ReadStatusUpdate)
  : M Message (pyobj Message) :=
  phone <- lift (validate_phone_number phone) ;;
  try_except_RequestError
    (response <- client_post_json
                   (GO_SERVICE_URL ++ py "/sessions/" ++ phone
                    ++ py "/messages/read-status")
                   (ReadStatusUpdate_dict read_status) ;;
     if Z.eqb (status_code response) 200
     then ret (Dict [(py "message", py "Read status updated successfully")])
     else if Z.eqb (status_code response) 404
     then raise (HTTPException 404 (py "Session or message not found"))
     else if Z.eqb (status_code response) 400
     then raise (HTTPException 400 (py "Invalid request"))
     else raise (HTTPException 500 (py "Failed to update read status"))).

Definition get_unread_count (phone : pystr) : M Message (pyobj Message) :=
  phone <- lift (validate_phone_number phone) ;;
  try_except_RequestError
    (response <- client_get
                   (GO_SERVICE_URL ++ py "/sessions/" ++ phone
                    ++ py "/messages/unread-count") ;;
     if Z.eqb (status_code response) 200 then return_json response
     else if Z.eqb (status_code response) 404
     then raise (HTTPException 404 (py "Session not found"))
     else raise (HTTPException 500 (py "Failed to get unread count"))).

(** [message["content"].get("text", f"[{message['content']['type']}]")]:
    the default is built before [get] runs, and is used only when the key
    ["text"] is missing. *)
Definition latest_text (message : Message) : result (option pystr) :=
  match type (content message) with
  | None => Raise (KeyError (py "type"))
  | Some t =>
      let placeholder := py "[" ++ t ++ py "]" in
      match text (content message) with
      | Absent => Ok (Some placeholder)
      | Null => Ok None
      | Val s => Ok (Some s)
      end
  end.

(** Lines 364-383: the chat summaries of a message list. *)
Definition chat_summaries (msgs : list Message) : result (list ChatSummary) :=
  summarize chat_id is_group timestamp is_read is_from_me latest_text msgs.

Definition get_chats (phone : pystr) : M Message (pyobj Message) :=
  phone <- lift (validate_phone_number phone) ;;
  try_except_RequestError
    (response <- client_get
                   (GO_SERVICE_URL ++ py "/sessions/" ++ phone ++ py "/messages") ;;
     if Z.eqb (status_code response) 200
     then
       data <- response_json response ;;
       let messages := match messages data with Some l => l | None => [] end in
       chats <- lift (chat_summaries messages) ;;
       ret (Chats chats)
     else if Z.eqb (status_code response) 404
     then raise (HTTPException 404 (py "Session not found"))
     else raise (HTTPException 500 (py "Failed to get chats"))).

(** *** Legacy endpoints, on the first available session *)

(** [sessions[0]["phone_number"]], which the delegate then treats as a
    [str]: [re.sub] raises [TypeError] on anything else. *)
Definition first_phone_number (first : jdict) : result pystr :=
  match jdict_get (py "phone_number") first with
  | None => Raise (KeyError (py "phone_number"))
  | Some (VStr s) => Ok s
  | Some _ => Raise TypeError
  end.

Definition legacy_get_auth_status : M Message (pyobj Message) :=
  sessions_response <- list_sessions ;;
  sessions <- lift (getattr_sessions sessions_response) ;;
  match sessions with
  | [] => raise (HTTPException 404 (py "No sessions available"))
  | first :: _ =>
      first_phone <- lift (first_phone_number first) ;;
      get_auth_status first_phone
  end.

Definition legacy_get_messages : M Message (pyobj Message) :=
  sessions_response <- list_sessions ;;
  sessions <- lift (getattr_sessions sessions_response) ;;
  match sessions with
  | [] => raise (HTTPException 404 (py "No sessions available"))
  | first :: _ =>
      first_phone <- lift (first_phone_number first) ;;
      get_messages first_phone 50
  end.

Inductive operation : Type :=
  | op_create_session (request : CreateSessionRequest)
  | op_list_sessions
  | op_get_session_status (phone : pystr)
  | op_connect_session (phone : pystr)
  | op_disconnect_session (phone : pystr)
  | op_delete_session (phone : pystr)
  | op_get_qr_code (phone : pystr)
  | op_get_auth_status (phone : pystr)
  | op_pair_phone (phone : pystr) (pair_request : option PairPhoneRequest)
  | op_get_messages (phone : pystr) (limit : Z)
  | op_get_chat_messages (phone chat_id : pystr) (limit : Z)
  | op_update_read_status (phone : pystr) (read_status : ReadStatusUpdate)
  | op_get_unread_count (phone : pystr)
  | op_get_chats (phone : pystr)
  | op_legacy_get_auth_status
  | op_legacy_get_messages.

Definition run (op : operation) : M Message (pyobj Message) :=
  match op with
  | op_create_session request => create_session request
  | op_list_sessions => list_sessions
  | op_get_session_status phone => get_session_status phone
  | op_connect_session phone => connect_session phone
  | op_disconnect_session phone => disconnect_session phone
  | op_delete_session phone => delete_session phone
  | op_get_qr_code phone => get_qr_code phone
  | op_get_auth_status phone => get_auth_status phone
  | op_pair_phone phone pair_request => pair_phone phone pair_request
  | op_get_messages phone limit => get_messages phone limit
  | op_get_chat_messages phone chat_id limit => get_chat_messages phone chat_id limit
  | op_update_read_status phone read_status => update_read_status phone read_status
  | op_get_unread_count phone => get_unread_count phone
  | op_get_chats phone => get_chats phone
  | op_legacy_get_auth_status => legacy_get_auth_status
  | op_legacy_get_messages => legacy_get_messages
  end.

End whatsapp_api_multisession.

(** ** The vocabulary of the specification *)

(** The domain outcomes of the outcome translator. *)
Inductive DomainOutcome (P : Type) : Type :=
  | Success (payload : P)
  | NotAuthenticated
  | AlreadyAuthenticated
  | NotFound (resource : pystr)
  | InvalidRequest (reason : pystr)
  | BackendUnavailable
  | BackendError.
Arguments Success {P} payload.
Arguments NotAuthenticated {P}.
Arguments AlreadyAuthenticated {P}.
Arguments NotFound {P} resource.
Arguments InvalidRequest {P} reason.
Arguments BackendUnavailable {P}.
Arguments BackendError {P}.

(** How a handler's result reads as a domain outcome: by the status of the
    [HTTPException], the detail naming the resource or the reason; an
    exception no handler catches reaches the client as a server error. *)
Definition outcome_of {P} (r : result P) : DomainOutcome P :=
  match r with
  | Ok p => Success p
  | Raise (HTTPException code detail) =>
      if Z.eqb code 400 then
        if startswith (py "Already authenticated") detail then AlreadyAuthenticated
        else if pystr_eqb detail (py "Not authenticated") then NotAuthenticated
        else InvalidRequest detail
      else if Z.eqb code 401 then NotAuthenticated
      else if Z.eqb code 404 then NotFound detail
      else if Z.eqb code 503 then BackendUnavailable
      else BackendError
  | Raise _ => BackendError
  end.

(** The pair-phone table as the specification words it, the reasons and the
    resource spelled as the handlers' details spell them. *)
Definition spec_pair_phone {P} (status : Z) (body : pystr) (code : P)
  : DomainOutcome P :=
  if Z.eqb status 200 then Success code
  else if Z.eqb status 400 then
    if contains (py "Already authenticated") body then AlreadyAuthenticated
    else if contains (py "Phone number is required") body
    then InvalidRequest (py "Phone number is required")
    else InvalidRequest (py "Invalid phone number format")
  else if Z.eqb status 404 then NotFound (py "Session not found")
  else BackendError.

(** The pair-phone table of [whatsapp_api.py]: no status but 200 and 400 is
    told apart. *)
Definition single_pair_phone_table {P} (status : Z) (body : pystr) (code : P)
  : DomainOutcome P :=
  if Z.eqb status 200 then Success code
  else if Z.eqb status 400 then
    if contains (py "Already authenticated") body then AlreadyAuthenticated
    else if contains (py "Phone number is required") body
    then InvalidRequest (py "Phone number is required")
    else InvalidRequest (py "Invalid phone number format")
  else BackendError.

(** The pair-phone table of [whatsapp_api_multisession.py]: one reason for
    every status 400 that is not "Already authenticated". *)
Definition multi_pair_phone_table {P} (status : Z) (body : pystr) (code : P)
  : DomainOutcome P :=
  if Z.eqb status 200 then Success code
  else if Z.eqb status 400 then
    if contains (py "Already authenticated") body then AlreadyAuthenticated
    else InvalidRequest (py "Failed to generate pairing code")
  else if Z.eqb status 404 then NotFound (py "Session not found")
  else BackendError.

(** The string [validate_phone_number] hands to [re.match], given what
    [re.sub] left. *)
Definition prefixed (s : pystr) : pystr :=
  if negb (startswith (py "+") s || startswith (py "00") s)
  then py "+" ++ s
  else if startswith (py "00") s
  then py "+" ++ skipn 2 s
  else s.

(** [0] to [9] *)
Definition ascii_digit (c : N) : bool := in_range 0x30 10 c.

(** The canonical identifier: [+], a digit 1-9, then 1 to 14 digits. *)
Definition canonical (s : pystr) : bool :=
  match s with
  | plus :: d :: rest =>
      N.eqb plus 0x2b && re_1_9 d
      && Nat.leb 1 (List.length rest) && Nat.leb (List.length rest) 14
      && forallb ascii_digit rest
  | _ => false
  end.

(** The same shape with the digits [\d] accepts. *)
Definition canonical_unicode (s : pystr) : bool :=
  match s with
  | plus :: d :: rest =>
      N.eqb plus 0x2b && re_1_9 d
      && Nat.leb 1 (List.length rest) && Nat.leb (List.length rest) 14
      && forallb re_digit rest
  | _ => false
  end.

(** A message of either file, seen through the fields the aggregation
    reads. *)
Definition same_fields (a : whatsapp_api.Message)
                       (b : whatsapp_api_multisession.Message) : Prop :=
  whatsapp_api.chat (whatsapp_api.source a) = whatsapp_api_multisession.chat_id b
  /\ whatsapp_api.is_group (whatsapp_api.source a)
     = whatsapp_api_multisession.is_group b
  /\ whatsapp_api.content a = whatsapp_api_multisession.content b
  /\ whatsapp_api.timestamp a = whatsapp_api_multisession.timestamp b
  /\ whatsapp_api.is_read a = whatsapp_api_multisession.is_read b
  /\ whatsapp_api.is_from_me (whatsapp_api.source a)
     = whatsapp_api_multisession.is_from_me b.

(** The requests the handlers of the claims send. *)
Definition single_probe : Request :=
  mkRequest GET (GO_SERVICE_URL ++ py "/auth/status") None None.

Definition sessions_list_request : Request :=
  mkRequest GET (GO_SERVICE_URL ++ py "/sessions/list") None None.

Definition single_pair_request (r : whatsapp_api.PairPhoneRequest) : Request :=
  mkRequest POST (GO_SERVICE_URL ++ py "/auth/pair-phone")
            (Some (whatsapp_api.PairPhoneRequest_dict r)) None.

Definition multi_pair_request
           (phone : pystr) (r : option whatsapp_api_multisession.PairPhoneRequest)
  : Request :=
  mkRequest POST
            (GO_SERVICE_URL ++ py "/sessions/" ++ phone ++ py "/auth/pair-phone")
            (Some [(py "phone_number", VStr phone);
                   (py "show_notification",
                    VBool (match r with
                           | Some r => whatsapp_api_multisession.show_notification r
                           | None => true
                           end))])
            None.

(** The three reports of the health check. *)
Definition health_report {Msg} (status go_service : string) : pyobj Msg :=
  Dict [(py "status", py status); (py "go_service", py go_service)].

(** ** What a chat summary should say *)

(** Every entry is filed under its own chat identifier. *)
Definition keyed_by_chat (d : dict ChatSummary) : Prop :=
  Forall (fun kv => chat_id (snd kv) = fst kv) d.

(** An entry with [n] more unread messages. *)
Definition add_unread (n : nat) (e : ChatSummary) : ChatSummary :=
  {| chat_id := chat_id e;
     is_group := is_group e;
     latest_message := latest_message e;
     latest_timestamp := latest_timestamp e;
     unread_count := unread_count e + n |}.

Section SummarySpec.

Variable Msg : Type.
Variable msg_chat : Msg -> pystr.
Variable msg_is_group : Msg -> bool.
Variable msg_timestamp : Msg -> pystr.
Variable msg_is_read : Msg -> bool.
Variable msg_is_from_me : Msg -> bool.
Variable msg_latest_text : Msg -> result (option pystr).

(** The number of messages of chat [c] that are neither read nor sent by
    the account itself. *)
Definition unread_in (c : pystr) (msgs : list Msg) : nat :=
  List.length
    (filter (fun m => pystr_eqb (msg_chat m) c
                      && negb (msg_is_read m) && negb (msg_is_from_me m))
            msgs).

(** Summary [s] of chat [c] shows a message of [c] in [msgs] that is above
    every earlier message of [c] and not below any later one: the first
    of those with the greatest timestamp. *)
Definition shows_first_latest (msgs : list Msg) (c : pystr) (s : ChatSummary)
  : Prop :=
  exists pre m post,
    msgs = pre ++ m :: post
    /\ msg_chat m = c
    /\ chat_id s = c
    /\ is_group s = msg_is_group m
    /\ msg_latest_text m = Ok (latest_message s)
    /\ latest_timestamp s = msg_timestamp m
    /\ (forall x, In x pre -> msg_chat x = c ->
          str_gt (msg_timestamp m) (msg_timestamp x) = true)
    /\ (forall x, In x post -> msg_chat x = c ->
          str_gt (msg_timestamp x) (msg_timestamp m) = false).

(** The state of the first loop after the messages [done]. *)
Definition latest_inv (done : list Msg) (chats : dict ChatSummary) : Prop :=
  keyed_by_chat chats
  /\ (forall c e, dict_get c chats = Some e ->
        unread_count e = 0 /\ shows_first_latest done c e)
  /\ (forall m, In m done -> dict_get (msg_chat m) chats <> None).

End SummarySpec.

(** The accessors of [whatsapp_api.py]. *)
Definition single_shows :=
  shows_first_latest (fun m => whatsapp_api.chat (whatsapp_api.source m))
     (fun m => whatsapp_api.is_group (whatsapp_api.source m))
     whatsapp_api.timestamp whatsapp_api.latest_text.
Definition single_unread :=
  unread_in (fun m => whatsapp_api.chat (whatsapp_api.source m))
     whatsapp_api.is_read
     (fun m => whatsapp_api.is_from_me (whatsapp_api.source m)).

(** The accessors of [whatsapp_api_multisession.py]. *)
Definition multi_shows :=
  shows_first_latest whatsapp_api_multisession.chat_id
     whatsapp_api_multisession.is_group whatsapp_api_multisession.timestamp
     whatsapp_api_multisession.latest_text.
Definition multi_unread :=
  unread_in whatsapp_api_multisession.chat_id whatsapp_api_multisession.is_read
     whatsapp_api_multisession.is_from_me.

(** Messages whose content carries the keys the rendering of the file
    reads: ["text"] (possibly [null]) and ["type"] in [whatsapp_api.py],
    ["type"] in [whatsapp_api_multisession.py]. *)
Definition single_renderable (msgs : list whatsapp_api.Message) : Prop :=
  forall m, In m msgs ->
            text (whatsapp_api.content m) <> Absent
            /\ type (whatsapp_api.content m) <> None.

Definition multi_renderable (msgs : list whatsapp_api_multisession.Message) : Prop :=
  forall m, In m msgs -> type (whatsapp_api_multisession.content m) <> None.

(** ** Sample data *)

Module Samples.

(** A text message of [whatsapp_api.py]. *)
Definition single_msg (i ts c : pystr) (content : Content) (from_me rd : bool)
  : whatsapp_api.Message :=
  whatsapp_api.mkMessage i ts
    (whatsapp_api.mkMessageSource c (py "491701234567") from_me false)
    content rd.

(** The same message as [whatsapp_api_multisession.py] receives it. *)
Definition multi_msg (i ts c : pystr) (content : Content) (from_me rd : bool)
  : whatsapp_api_multisession.Message :=
  whatsapp_api_multisession.mkMessage i (py "+491701234567") c
    (py "491701234567") content ts from_me false rd ts.

Definition said (s : string) : Content := mkContent (Val (py s)) (Some (py "text")).
Definition image_null : Content := mkContent Null (Some (py "image")).
Definition image_empty : Content := mkContent (Val []) (Some (py "image")).
Definition image_bare : Content := mkContent Absent (Some (py "image")).

Definition T1 : pystr := py "2024-05-01T10:00:00Z".
Definition T2 : pystr := py "2024-05-01T10:00:05Z".
Definition T3 : pystr := py "2024-05-02T08:30:00Z".

(** Chat [a] with two messages at [T2], and chat [b]. *)
Definition single_inbox : list whatsapp_api.Message :=
  [ single_msg (py "m1") T1 (py "a") (said "one") false false;
    single_msg (py "m2") T2 (py "a") (said "two") false false;
    single_msg (py "m3") T2 (py "a") (said "three") true false;
    single_msg (py "m4") T1 (py "b") (said "four") false true ].

Definition multi_inbox : list whatsapp_api_multisession.Message :=
  [ multi_msg (py "m1") T1 (py "a") (said "one") false false;
    multi_msg (py "m2") T2 (py "a") (said "two") false false;
    multi_msg (py "m3") T2 (py "a") (said "three") true false;
    multi_msg (py "m4") T1 (py "b") (said "four") false true ].

Definition single_inbox_summaries : list ChatSummary :=
  [ mkChatSummary (py "a") false (Some (py "two")) T2 2;
    mkChatSummary (py "b") false (Some (py "four")) T1 0 ].

(** One chat with messages at [T1 < T2 < T3], in two orders. *)
Definition single_thread : list whatsapp_api.Message :=
  [ single_msg (py "m1") T1 (py "a") (said "one") false false;
    single_msg (py "m2") T2 (py "a") (said "two") false false;
    single_msg (py "m3") T3 (py "a") (said "three") false false ].

Definition single_thread_shuffled : list whatsapp_api.Message :=
  [ single_msg (py "m3") T3 (py "a") (said "three") false false;
    single_msg (py "m1") T1 (py "a") (said "one") false false;
    single_msg (py "m2") T2 (py "a") (said "two") false false ].

Definition multi_thread : list whatsapp_api_multisession.Message :=
  [ multi_msg (py "m1") T1 (py "a") (said "one") false false;
    multi_msg (py "m2") T2 (py "a") (said "two") false false;
    multi_msg (py "m3") T3 (py "a") (said "three") false false ].

Definition multi_thread_shuffled : list whatsapp_api_multisession.Message :=
  [ multi_msg (py "m3") T3 (py "a") (said "three") false false;
    multi_msg (py "m1") T1 (py "a") (said "one") false false;
    multi_msg (py "m2") T2 (py "a") (said "two") false false ].

Definition thread_summaries : list ChatSummary :=
  [ mkChatSummary (py "a") false (Some (py "three")) T3 3 ].

(** *** Backends and their answers *)

(** A Go service that refuses every connection. *)
Definition down {Msg} : backend Msg :=
  fun _ _ => Failed ConnectError.

(** A Go service that answers every request with [r]. *)
Definition answering {Msg} (r : Response Msg) : backend Msg :=
  fun _ _ => Replied r.

Definition quoted (s : string) : pystr := [0x22%N] ++ py s ++ [0x22%N].

Definition no_sessions {Msg} : Response Msg :=
  mkResponse 200 (py "{" ++ quoted "sessions" ++ py ": []}")
             (Some (mkJsonBody [] (@None (list Msg)) (Some []))).

Definition one_session {Msg} : Response Msg :=
  mkResponse 200
    (py "{" ++ quoted "sessions" ++ py ": [{" ++ quoted "phone_number"
     ++ py ": " ++ quoted "+491701234567" ++ py "}]}")
    (Some (mkJsonBody [] (@None (list Msg))
             (Some [[(py "phone_number", VStr (py "+491701234567"))]]))).

Definition pairing_code {Msg} : JsonBody Msg :=
  mkJsonBody [(py "pair_code", VStr (py "ABCD-1234"))] None None.

Definition paired {Msg} : Response Msg :=
  mkResponse 200 (py "{" ++ quoted "pair_code" ++ py ": " ++ quoted "ABCD-1234" ++ py "}")
             (Some pairing_code).

Definition not_found {Msg} : Response Msg :=
  mkResponse 404 (py "Session not found") None.

Definition phone_required {Msg} : Response Msg :=
  mkResponse 400 (py "Phone number is required") None.

Definition pair_request : whatsapp_api.PairPhoneRequest :=
  whatsapp_api.mkPairPhoneRequest (py "+491701234567") true.

End Samples.

(** ** Routes

    The decorators of a file list its routes in order.  A request path is
    taken by its segments, ["/a/b"] being [["a"; "b"]] and ["/"] being
    [[""]]; a segment holds no [/].  A literal segment of the pattern matches
    itself, and as the last one also itself followed by a newline (the
    pattern ends in [$]); a parameter matches any segment that is not empty.
    The first route whose path and method both match serves the request. *)

Inductive segment : Type :=
  | Lit (s : pystr)
  | Param (name : pystr).

Fixpoint match_segments (pattern : list segment) (path : list pystr)
  : option (list (pystr * pystr)) :=
  match pattern, path with
  | [], [] => Some []
  | Lit s :: pattern', x :: path' =>
      match pattern', path' with
      | [], [] =>
          if pystr_eqb x s || pystr_eqb x (s ++ [0x0a%N]) then Some [] else None
      | _, _ => if pystr_eqb x s then match_segments pattern' path' else None
      end
  | Param name :: pattern', x :: path' =>
      match x with
      | [] => None
      | _ :: _ => option_map (cons (name, x)) (match_segments pattern' path')
      end
  | _, _ => None
  end.

Definition http_method_eqb (a b : http_method) : bool :=
  match a, b with
  | GET, GET | POST, POST | DELETE, DELETE => true
  | _, _ => false
  end.

Record Route (E : Type) : Type := mkRoute {
  route_method : http_method;
  route_pattern : list segment;
  route_endpoint : E
}.

(** The path parameters, when route [r] serves method [m] on [path]. *)
Definition route_match {E} (r : Route E) (m : http_method) (path : list pystr)
  : option (list (pystr * pystr)) :=
  if http_method_eqb (route_method r) m
  then match_segments (route_pattern r) path
  else None.

Fixpoint dispatch {E} (routes : list (Route E)) (m : http_method)
         (path : list pystr) : option (E * list (pystr * pystr)) :=
  match routes with
  | [] => None
  | r :: routes' =>
      match route_match r m path with
      | Some params => Some (route_endpoint r, params)
      | None => dispatch routes' m path
      end
  end.

(** The handlers of [whatsapp_api.py]. *)
Inductive single_endpoint : Type :=
  | s_root | s_health_check | s_get_qr_code | s_get_auth_status | s_logout
  | s_pair_phone | s_get_messages | s_get_chat_messages
  | s_update_read_status | s_get_chats.

Definition single_routes : list (Route single_endpoint) :=
  [ mkRoute GET [Lit (py "")] s_root;
    mkRoute GET [Lit (py "health")] s_health_check;
    mkRoute GET [Lit (py "auth"); Lit (py "qr")] s_get_qr_code;
    mkRoute GET [Lit (py "auth"); Lit (py "status")] s_get_auth_status;
    mkRoute POST [Lit (py "auth"); Lit (py "logout")] s_logout;
    mkRoute POST [Lit (py "auth"); Lit (py "pair-phone")] s_pair_phone;
    mkRoute GET [Lit (py "messages")] s_get_messages;
    mkRoute GET [Lit (py "messages"); Param (py "chat_id")] s_get_chat_messages;
    mkRoute POST [Lit (py "messages"); Lit (py "read-status")] s_update_read_status;
    mkRoute GET [Lit (py "chats")] s_get_chats ].

(** The handlers of [whatsapp_api_multisession.py]. *)
Inductive multi_endpoint : Type :=
  | m_root | m_health_check | m_create_session | m_list_sessions
  | m_get_session_status | m_connect_session | m_disconnect_session
  | m_delete_session | m_get_qr_code | m_get_auth_status | m_pair_phone
  | m_get_messages | m_get_chat_messages | m_update_read_status
  | m_get_unread_count | m_get_chats
  | m_legacy_get_auth_status | m_legacy_get_messages.

Definition session_route (m : http_method) (rest : list segment)
           (e : multi_endpoint) : Route multi_endpoint :=
  mkRoute m (Lit (py "sessions") :: Param (py "phone") :: rest) e.

Definition multi_routes : list (Route multi_endpoint) :=
  [ mkRoute GET [Lit (py "")] m_root;
    mkRoute GET [Lit (py "health")] m_health_check;
    mkRoute POST [Lit (py "sessions"); Lit (py "create")] m_create_session;
    mkRoute GET [Lit (py "sessions"); Lit (py "list")] m_list_sessions;
    session_route GET [Lit (py "status")] m_get_session_status;
    session_route POST [Lit (py "connect")] m_connect_session;
    session_route POST [Lit (py "disconnect")] m_disconnect_session;
    session_route DELETE [] m_delete_session;
    session_route GET [Lit (py "auth"); Lit (py "qr")] m_get_qr_code;
    session_route GET [Lit (py "auth"); Lit (py "status")] m_get_auth_status;
    session_route POST [Lit (py "auth"); Lit (py "pair-phone")] m_pair_phone;
    session_route GET [Lit (py "messages")] m_get_messages;
    session_route GET [Lit (py "messages"); Param (py "chat_id")] m_get_chat_messages;
    session_route POST [Lit (py "messages"); Lit (py "read-status")]
                  m_update_read_status;
    session_route GET [Lit (py "messages"); Lit (py "unread-count")]
                  m_get_unread_count;
    session_route GET [Lit (py "chats")] m_get_chats;
    mkRoute GET [Lit (py "auth"); Lit (py "status")] m_legacy_get_auth_status;
    mkRoute GET [Lit (py "messages")] m_legacy_get_messages ].

(** ** Reading the operations *)

(** The identifier an operation of [whatsapp_api_multisession.py] is given,
    in the path or, for [create_session], in the body. *)
Definition given_phone (op : whatsapp_api_multisession.operation) : option pystr :=
  match op with
  | whatsapp_api_multisession.op_create_session request =>
      Some (whatsapp_api_multisession.create_phone_number request)
  | whatsapp_api_multisession.op_get_session_status phone
  | whatsapp_api_multisession.op_connect_session phone
  | whatsapp_api_multisession.op_disconnect_session phone
  | whatsapp_api_multisession.op_delete_session phone
  | whatsapp_api_multisession.op_get_qr_code phone
  | whatsapp_api_multisession.op_get_auth_status phone
  | whatsapp_api_multisession.op_pair_phone phone _
  | whatsapp_api_multisession.op_get_messages phone _
  | whatsapp_api_multisession.op_get_chat_messages phone _ _
  | whatsapp_api_multisession.op_update_read_status phone _
  | whatsapp_api_multisession.op_get_unread_count phone
  | whatsapp_api_multisession.op_get_chats phone => Some phone
  | whatsapp_api_multisession.op_list_sessions
  | whatsapp_api_multisession.op_legacy_get_auth_status
  | whatsapp_api_multisession.op_legacy_get_messages => None
  end.

(** The operations whose route has the identifier in its path. *)
Definition session_scoped (op : whatsapp_api_multisession.operation) : bool :=
  match op with
  | whatsapp_api_multisession.op_create_session _
  | whatsapp_api_multisession.op_list_sessions
  | whatsapp_api_multisession.op_legacy_get_auth_status
  | whatsapp_api_multisession.op_legacy_get_messages => false
  | _ => true
  end.

(** The operations of [whatsapp_api.py] that answer 401 from the Go service
    with "Not authenticated". *)
Definition needs_login (op : whatsapp_api.operation) : bool :=
  match op with
  | whatsapp_api.op_get_messages
  | whatsapp_api.op_get_chat_messages _
  | whatsapp_api.op_update_read_status _
  | whatsapp_api.op_get_chats => true
  | _ => false
  end.

(** The operations that end in [return response.json()]. *)
Definition single_returns_json (op : whatsapp_api.operation) : bool :=
  match op with
  | whatsapp_api.op_get_qr_code
  | whatsapp_api.op_get_auth_status
  | whatsapp_api.op_pair_phone _
  | whatsapp_api.op_get_messages
  | whatsapp_api.op_get_chat_messages _ => true
  | _ => false
  end.

Definition multi_returns_json (op : whatsapp_api_multisession.operation) : bool :=
  match op with
  | whatsapp_api_multisession.op_create_session _
  | whatsapp_api_multisession.op_list_sessions
  | whatsapp_api_multisession.op_get_session_status _
  | whatsapp_api_multisession.op_get_qr_code _
  | whatsapp_api_multisession.op_get_auth_status _
  | whatsapp_api_multisession.op_pair_phone _ _
  | whatsapp_api_multisession.op_get_messages _ _
  | whatsapp_api_multisession.op_get_chat_messages _ _ _
  | whatsapp_api_multisession.op_get_unread_count _ => true
  | _ => false
  end.

(** ** Reading the summaries *)

(** The distinct identifiers of a list, each where it first occurs. *)
Fixpoint first_occurrences (l : list pystr) : list pystr :=
  match l with
  | [] => []
  | k :: l' =>
      k :: filter (fun k' => negb (pystr_eqb k' k)) (first_occurrences l')
  end.

(** The unread counts of all summaries together. *)
Definition total_unread (summaries : list ChatSummary) : nat :=
  list_sum (map unread_count summaries).

(** ** More sample data *)

Module Cases.

(** Answers with a status no handler knows, and with 401. *)
Definition teapot {Msg} : Response Msg :=
  mkResponse 418 (py "I'm a teapot") None.

Definition unauthorized {Msg} : Response Msg :=
  mkResponse 401 (py "Not authenticated") None.

Definition read_status : whatsapp_api.ReadStatusUpdate :=
  whatsapp_api.mkReadStatusUpdate (py "3EB0A1") true.

Definition written_phone : pystr := py "+49 (170) 123-4567".
Definition normal_phone : pystr := py "+491701234567".

Definition pair_own : whatsapp_api_multisession.PairPhoneRequest :=
  whatsapp_api_multisession.mkPairPhoneRequest (py "+491701234567") true.

Definition pair_other : whatsapp_api_multisession.PairPhoneRequest :=
  whatsapp_api_multisession.mkPairPhoneRequest (py "+15550100") true.

End Cases.

(** ** The instant a timestamp denotes *)

(** Both files declare [timestamp: datetime], and the Go service writes a
    time in RFC 3339: [YYYY-MM-DDTHH:MM:SS], an optional fraction of a
    second, then [Z] or a UTC offset [+HH:MM] or [-HH:MM].  [get_chats]
    never parses the field: it compares the strings.  [instant] is the
    reading of the declared type, the point in time the string denotes, in
    nanoseconds since 1970-01-01T00:00:00Z.  It belongs to the description
    of the data, not to the code. *)

Definition digit_value (c : N) : option Z :=
  if ascii_digit c then Some (Z.of_N c - 0x30)%Z else None.

Fixpoint number_from (acc : Z) (s : pystr) : option Z :=
  match s with
  | [] => Some acc
  | c :: s' =>
      match digit_value c with
      | Some d => number_from (10 * acc + d)%Z s'
      | None => None
      end
  end.

(** The value of a non-empty run of the digits 0-9. *)
Definition number (s : pystr) : option Z :=
  match s with
  | [] => None
  | _ => number_from 0%Z s
  end.

(** Days from 1970-01-01 to day [d] of month [m] of year [y] in the
    Gregorian calendar (years counted from March, in eras of 400 years). *)
Definition days_from_civil (y m d : Z) : Z :=
  (let y' := if m <=? 2 then y - 1 else y in
   let era := y' / 400 in
   let yoe := y' - era * 400 in
   let mp := if m <=? 2 then m + 9 else m - 3 in
   let doy := (153 * mp + 2) / 5 + d - 1 in
   let doe := yoe * 365 + yoe / 4 - yoe / 100 + doy in
   era * 146097 + doe - 719468)%Z.

(** The leading digits 0-9 of [s], and what follows them. *)
Fixpoint leading_digits (s : pystr) : pystr * pystr :=
  match s with
  | [] => ([], [])
  | c :: s' =>
      if ascii_digit c
      then let (ds, rest) := leading_digits s' in (c :: ds, rest)
      else ([], s)
  end.

(** The fraction of a second, in nanoseconds, and what follows it. *)
Definition fraction (s : pystr) : option (Z * pystr) :=
  match s with
  | c :: s' =>
      if N.eqb c 0x2e
      then match leading_digits s' with
           | ([], _) => None
           | (ds, rest) =>
               match number (firstn 9 (ds ++ repeat 0x30%N 9)) with
               | Some n => Some (n, rest)
               | None => None
               end
           end
      else Some (0%Z, s)
  | [] => Some (0%Z, s)
  end.

(** The UTC offset in seconds: [Z], [+HH:MM] or [-HH:MM]. *)
Definition utc_offset (s : pystr) : option Z :=
  match s with
  | [z] => if N.eqb z 0x5a then Some 0%Z else None
  | [sign; h1; h2; colon; m1; m2] =>
      match number [h1; h2], number [m1; m2] with
      | Some h, Some m =>
          if negb (N.eqb colon 0x3a) then None
          else if N.eqb sign 0x2b then Some (h * 3600 + m * 60)%Z
          else if N.eqb sign 0x2d then Some (- (h * 3600 + m * 60))%Z
          else None
      | _, _ => None
      end
  | _ => None
  end.

Definition instant (ts : pystr) : option Z :=
  match ts with
  | y1 :: y2 :: y3 :: y4 :: dash1 :: mo1 :: mo2 :: dash2 :: d1 :: d2 :: t
       :: h1 :: h2 :: colon1 :: mi1 :: mi2 :: colon2 :: s1 :: s2 :: rest =>
      if negb (N.eqb dash1 0x2d && N.eqb dash2 0x2d && N.eqb t 0x54
               && N.eqb colon1 0x3a && N.eqb colon2 0x3a)
      then None
      else
        match number [y1; y2; y3; y4], number [mo1; mo2], number [d1; d2],
              number [h1; h2], number [mi1; mi2], number [s1; s2],
              fraction rest with
        | Some y, Some mo, Some d, Some h, Some mi, Some s, Some (ns, zone) =>
            match utc_offset zone with
            | Some off =>
                Some (((days_from_civil y mo d * 86400 + h * 3600 + mi * 60 + s
                        - off) * 1000000000 + ns)%Z)
            | None => None
            end
        | _, _, _, _, _, _, _ => None
        end
  | _ => None
  end.

(** ** Timestamps written with different offsets *)

Module ClockChange.

(** Three times of the night of 2024-10-27, written as a Go service writes
    them in a zone that leaves summer time at 03:00 that night, in the
    order in which they occur: 23:50, 00:30 and 01:10 UTC. *)
Definition T1 : pystr := py "2024-10-27T01:50:00+02:00".
Definition T2 : pystr := py "2024-10-27T02:30:00+02:00".
Definition T3 : pystr := py "2024-10-27T02:10:00+01:00".

(** One time with and without a fraction of a second, and one time in two
    spellings of UTC. *)
Definition whole : pystr := py "2024-05-01T10:00:00Z".
Definition half_past : pystr := py "2024-05-01T10:00:00.5Z".
Definition numeric_utc : pystr := py "2024-05-01T10:00:00+00:00".

(** One chat with a message at each of the three times. *)
Definition single_one : whatsapp_api.Message :=
  Samples.single_msg (py "m1") T1 (py "a") (Samples.said "one") false false.
Definition single_two : whatsapp_api.Message :=
  Samples.single_msg (py "m2") T2 (py "a") (Samples.said "two") false false.
Definition single_three : whatsapp_api.Message :=
  Samples.single_msg (py "m3") T3 (py "a") (Samples.said "three") false false.

Definition multi_one : whatsapp_api_multisession.Message :=
  Samples.multi_msg (py "m1") T1 (py "a") (Samples.said "one") false false.
Definition multi_two : whatsapp_api_multisession.Message :=
  Samples.multi_msg (py "m2") T2 (py "a") (Samples.said "two") false false.
Definition multi_three : whatsapp_api_multisession.Message :=
  Samples.multi_msg (py "m3") T3 (py "a") (Samples.said "three") false false.

(** The six orders of three messages. *)
Definition orders {A : Type} (x y z : A) : list (list A) :=
  [ [x; y; z]; [x; z; y]; [y; x; z]; [y; z; x]; [z; x; y]; [z; y; x] ].

(** The summary that shows the message of 00:30 UTC, with [n] unread. *)
Definition shows_two (n : nat) : list ChatSummary :=
  [ mkChatSummary (py "a") false (Some (py "two")) T2 n ].

(** Two messages of one chat at the same time, the first written with
    [+00:00] and the second with [Z]. *)
Definition single_same_time : list whatsapp_api.Message :=
  [ Samples.single_msg (py "m1") numeric_utc (py "a") (Samples.said "first") false false;
    Samples.single_msg (py "m2") whole (py "a") (Samples.said "second") false false ].

Definition multi_same_time : list whatsapp_api_multisession.Message :=
  [ Samples.multi_msg (py "m1") numeric_utc (py "a") (Samples.said "first") false false;
    Samples.multi_msg (py "m2") whole (py "a") (Samples.said "second") false false ].

End ClockChange.

(** * Properties *)

(** ** Strings and their order *)

Lemma pystr_eqb_eq (a b : pystr) : pystr_eqb a b = true <-> a = b.
Proof.
  unfold pystr_eqb. destruct (list_eq_dec N.eq_dec a b); split; congruence.
Qed.

Lemma pystr_eqb_refl (a : pystr) : pystr_eqb a a = true.
Proof. now apply pystr_eqb_eq. Qed.

Lemma pystr_eqb_neq (a b : pystr) : pystr_eqb a b = false <-> a <> b.
Proof.
  unfold pystr_eqb. destruct (list_eq_dec N.eq_dec a b); split; congruence.
Qed.

Lemma str_gt_irrefl (a : pystr) : str_gt a a = false.
Proof.
  induction a as [|x a IH]; simpl; [reflexivity|].
  now rewrite N.compare_refl.
Qed.

Lemma str_gt_trans (a b c : pystr) :
  str_gt a b = true -> str_gt b c = true -> str_gt a c = true.
Proof.
  revert b c. induction a as [|x a IH]; intros [|y b] [|z c]; simpl;
    try discriminate; try reflexivity.
  destruct (N.compare_spec x y), (N.compare_spec y z); subst;
    try discriminate; intros Hab Hbc.
  - rewrite N.compare_refl. eauto.
  - now rewrite (proj2 (N.compare_gt_iff y z)).
  - now rewrite (proj2 (N.compare_gt_iff x z)).
  - rewrite (proj2 (N.compare_gt_iff x z)); [reflexivity | lia].
Qed.

(** The order is total: two strings neither above the other are equal. *)
Lemma str_gt_total (a b : pystr) :
  str_gt a b = false -> str_gt b a = false -> a = b.
Proof.
  revert b. induction a as [|x a IH]; intros [|y b]; simpl;
    try discriminate; try reflexivity.
  rewrite (N.compare_antisym x y).
  destruct (N.compare_spec x y); subst; simpl; try discriminate.
  intros Hab Hba. f_equal. now apply IH.
Qed.

Lemma str_gt_asym (a b : pystr) : str_gt a b = true -> str_gt b a = false.
Proof.
  intros Hab. destruct (str_gt b a) eqn:Hba; [|reflexivity].
  pose proof (str_gt_trans _ _ _ Hab Hba) as H.
  now rewrite str_gt_irrefl in H.
Qed.

(** [x <= o < m] gives [x < m]. *)
Lemma str_le_lt_trans (x o m : pystr) :
  str_gt x o = false -> str_gt m o = true -> str_gt m x = true.
Proof.
  intros Hxo Hmo. destruct (str_gt m x) eqn:Hmx; [reflexivity|].
  destruct (str_gt x m) eqn:Hxm.
  - pose proof (str_gt_trans _ _ _ Hxm Hmo). congruence.
  - pose proof (str_gt_total _ _ Hmx Hxm). subst. congruence.
Qed.

(** ** Dictionaries *)

Lemma dict_get_set_same {V} (k : pystr) (v : V) (d : dict V) :
  dict_get k (dict_set k v d) = Some v.
Proof.
  induction d as [|[k0 v0] d IH]; simpl.
  - now rewrite pystr_eqb_refl.
  - destruct (pystr_eqb k0 k) eqn:E; simpl; now rewrite E.
Qed.

Lemma dict_get_set_other {V} (k k' : pystr) (v : V) (d : dict V) :
  k <> k' -> dict_get k' (dict_set k v d) = dict_get k' d.
Proof.
  intros Hne. induction d as [|[k0 v0] d IH]; simpl.
  - now rewrite (proj2 (pystr_eqb_neq k k') Hne).
  - destruct (pystr_eqb k0 k) eqn:E; simpl.
    + apply pystr_eqb_eq in E. subst k0.
      now rewrite (proj2 (pystr_eqb_neq k k') Hne).
    + now rewrite IH.
Qed.

Lemma keyed_by_chat_set (k : pystr) (e : ChatSummary) (d : dict ChatSummary) :
  chat_id e = k -> keyed_by_chat d -> keyed_by_chat (dict_set k e d).
Proof.
  intros He. induction 1 as [|[k0 v0] d Hk Hd IH]; simpl.
  - repeat constructor. exact He.
  - destruct (pystr_eqb k0 k) eqn:E; constructor; auto.
    apply pystr_eqb_eq in E. simpl. congruence.
Qed.

Lemma keyed_by_chat_get (k : pystr) (e : ChatSummary) (d : dict ChatSummary) :
  keyed_by_chat d -> dict_get k d = Some e -> chat_id e = k.
Proof.
  induction 1 as [|[k0 v0] d Hk Hd IH]; simpl; [discriminate|].
  destruct (pystr_eqb k0 k) eqn:E.
  - apply pystr_eqb_eq in E. intros [= <-]. simpl in Hk. congruence.
  - exact IH.
Qed.

(** Looking a chat up in the returned list is looking it up in the
    dictionary. *)
Lemma summary_for_values (c : pystr) (d : dict ChatSummary) :
  keyed_by_chat d -> summary_for c (dict_values d) = dict_get c d.
Proof.
  unfold summary_for, dict_values.
  induction 1 as [|[k0 v0] d Hk Hd IH]; simpl; [reflexivity|].
  simpl in Hk. rewrite Hk. destruct (pystr_eqb k0 c); [reflexivity | exact IH].
Qed.

(** ** The two loops *)

Section SummaryFacts.

Variable Msg : Type.
Variable msg_chat : Msg -> pystr.
Variable msg_is_group : Msg -> bool.
Variable msg_timestamp : Msg -> pystr.
Variable msg_is_read : Msg -> bool.
Variable msg_is_from_me : Msg -> bool.
Variable msg_latest_text : Msg -> result (option pystr).

Local Abbreviation entry_of :=
  (new_entry msg_chat msg_is_group msg_timestamp msg_latest_text).
Local Abbreviation loop1 :=
  (latest_loop msg_chat msg_is_group msg_timestamp msg_latest_text).
Local Abbreviation loop2 := (unread_loop msg_chat msg_is_read msg_is_from_me).
Local Abbreviation shows :=
  (shows_first_latest msg_chat msg_is_group msg_timestamp msg_latest_text).
Local Abbreviation inv :=
  (latest_inv msg_chat msg_is_group msg_timestamp msg_latest_text).
Local Abbreviation unread := (unread_in msg_chat msg_is_read msg_is_from_me).

Lemma new_entry_fields (m : Msg) (e : ChatSummary) :
  entry_of m = Ok e ->
  chat_id e = msg_chat m /\ is_group e = msg_is_group m
  /\ msg_latest_text m = Ok (latest_message e)
  /\ latest_timestamp e = msg_timestamp m /\ unread_count e = 0.
Proof.
  unfold new_entry, rbind.
  destruct (msg_latest_text m) as [t|]; [|discriminate].
  intros [= <-]. simpl. auto.
Qed.

(** A message of another chat, or one not above the shown one, may follow
    without changing what the summary shows. *)
Lemma shows_snoc_keep (done : list Msg) (c : pystr) (e : ChatSummary) (m : Msg) :
  shows done c e ->
  (msg_chat m = c -> str_gt (msg_timestamp m) (latest_timestamp e) = false) ->
  shows (done ++ [m]) c e.
Proof.
  intros (pre & m0 & post & -> & Hc & Hid & Hg & Ht & Hts & Hpre & Hpost) Hm.
  exists pre, m0, (post ++ [m]). repeat split; auto.
  - now rewrite <- app_assoc.
  - intros x Hx Hxc. apply in_app_or in Hx. destruct Hx as [Hx|[<-|[]]].
    + now apply Hpost.
    + rewrite <- Hts. now apply Hm.
Qed.

(** A message above the shown one takes its place. *)
Lemma shows_snoc_replace (done : list Msg) (e0 e : ChatSummary) (m : Msg) :
  shows done (msg_chat m) e0 ->
  str_gt (msg_timestamp m) (latest_timestamp e0) = true ->
  entry_of m = Ok e ->
  shows (done ++ [m]) (msg_chat m) e.
Proof.
  intros (pre & m0 & post & -> & Hc & Hid & Hg & Ht & Hts & Hpre & Hpost) Hgt He.
  apply new_entry_fields in He. destruct He as (Ei & Eg & Et & Ets & _).
  rewrite Hts in Hgt.
  exists (pre ++ m0 :: post), m, []. repeat split; auto.
  - intros x Hx Hxc. apply in_app_or in Hx. destruct Hx as [Hx|[<-|Hx]].
    + eapply str_gt_trans; [exact Hgt | now apply Hpre].
    + exact Hgt.
    + eapply str_le_lt_trans; [now apply Hpost | exact Hgt].
  - intros x [].
Qed.

(** The first message of a chat is what its summary shows. *)
Lemma shows_snoc_first (done : list Msg) (e : ChatSummary) (m : Msg) :
  (forall x, In x done -> msg_chat x <> msg_chat m) ->
  entry_of m = Ok e ->
  shows (done ++ [m]) (msg_chat m) e.
Proof.
  intros Hnew He.
  apply new_entry_fields in He. destruct He as (Ei & Eg & Et & Ets & _).
  exists done, m, []. repeat split; auto.
  - intros x Hx Hxc. now destruct (Hnew x Hx).
  - intros x [].
Qed.

Lemma latest_inv_nil : inv [] [].
Proof.
  repeat split; try constructor; simpl; try discriminate; contradiction.
Qed.

(** One turn of the first loop keeps its invariant. *)
Lemma latest_inv_step (done : list Msg) (chats : dict ChatSummary) (m : Msg) :
  inv done chats ->
  (if is_newer msg_chat msg_timestamp m chats
   then exists e, entry_of m = Ok e
                  /\ inv (done ++ [m]) (dict_set (msg_chat m) e chats)
   else inv (done ++ [m]) chats)
  \/ (is_newer msg_chat msg_timestamp m chats = true
      /\ exists x, entry_of m = Raise x).
Proof.
  intros (Hkey & Hshow & Hmem). unfold is_newer.
  destruct (dict_get (msg_chat m) chats) as [e0|] eqn:Hget.
  - destruct (str_gt (msg_timestamp m) (latest_timestamp e0)) eqn:Hgt.
    + destruct (entry_of m) as [e|x] eqn:He; [left | right; eauto].
      exists e. split; [reflexivity|].
      pose proof (new_entry_fields _ He) as (Ei & _ & _ & _ & Eu).
      split; [now apply keyed_by_chat_set|]. split.
      * intros c e1 H1.
        destruct (list_eq_dec N.eq_dec (msg_chat m) c) as [<-|Hne].
        -- rewrite dict_get_set_same in H1. injection H1 as <-.
           split; [exact Eu|].
           eapply shows_snoc_replace; eauto. now apply Hshow.
        -- rewrite dict_get_set_other in H1 by exact Hne.
           destruct (Hshow _ _ H1) as [Hu Hs]. split; [exact Hu|].
           apply shows_snoc_keep; [exact Hs | congruence].
      * intros x Hx.
        destruct (list_eq_dec N.eq_dec (msg_chat m) (msg_chat x)) as [<-|Hne].
        -- now rewrite dict_get_set_same.
        -- rewrite dict_get_set_other by exact Hne.
           apply in_app_or in Hx. destruct Hx as [Hx|[<-|[]]];
             [now apply Hmem | congruence].
    + left. split; [exact Hkey|]. split.
      * intros c e1 H1. destruct (Hshow _ _ H1) as [Hu Hs].
        split; [exact Hu|]. apply shows_snoc_keep; [exact Hs|].
        intros <-. congruence.
      * intros x Hx. apply in_app_or in Hx.
        destruct Hx as [Hx|[<-|[]]]; [now apply Hmem | congruence].
  - destruct (entry_of m) as [e|x] eqn:He; [left | right; eauto].
    exists e. split; [reflexivity|].
    pose proof (new_entry_fields _ He) as (Ei & _ & _ & _ & Eu).
    split; [now apply keyed_by_chat_set|]. split.
    + intros c e1 H1.
      destruct (list_eq_dec N.eq_dec (msg_chat m) c) as [<-|Hne].
      * rewrite dict_get_set_same in H1. injection H1 as <-.
        split; [exact Eu|]. apply shows_snoc_first; [|exact He].
        intros x Hx Hxc. apply (Hmem x Hx). now rewrite Hxc.
      * rewrite dict_get_set_other in H1 by exact Hne.
        destruct (Hshow _ _ H1) as [Hu Hs]. split; [exact Hu|].
        apply shows_snoc_keep; [exact Hs | congruence].
    + intros x Hx.
      destruct (list_eq_dec N.eq_dec (msg_chat m) (msg_chat x)) as [<-|Hne].
      * now rewrite dict_get_set_same.
      * rewrite dict_get_set_other by exact Hne.
        apply in_app_or in Hx. destruct Hx as [Hx|[<-|[]]];
          [now apply Hmem | congruence].
Qed.

Lemma latest_loop_inv (rest done : list Msg) (chats chats' : dict ChatSummary) :
  inv done chats -> loop1 rest chats = Ok chats' -> inv (done ++ rest) chats'.
Proof.
  revert done chats. induction rest as [|m rest IH]; intros done chats Hinv.
  - simpl. intros [= <-]. now rewrite app_nil_r.
  - simpl.
    replace (done ++ m :: rest) with ((done ++ [m]) ++ rest)
      by now rewrite <- app_assoc.
    destruct (latest_inv_step m Hinv) as [Hstep|[Hnew [x Hx]]].
    + destruct (is_newer msg_chat msg_timestamp m chats).
      * destruct Hstep as (e & -> & Hinv'). simpl. now apply IH.
      * now apply IH.
    + rewrite Hnew, Hx. discriminate.
Qed.

Lemma latest_loop_total (rest done : list Msg) (chats : dict ChatSummary) :
  inv done chats ->
  (forall m, In m rest -> exists t, msg_latest_text m = Ok t) ->
  exists chats', loop1 rest chats = Ok chats'.
Proof.
  revert done chats. induction rest as [|m rest IH]; intros done chats Hinv Hok.
  - now exists chats.
  - simpl.
    assert (Hrest : forall x, In x rest -> exists t, msg_latest_text x = Ok t)
      by (intros x Hx; apply Hok; now right).
    destruct (latest_inv_step m Hinv) as [Hstep|[Hnew [x Hx]]].
    + destruct (is_newer msg_chat msg_timestamp m chats).
      * destruct Hstep as (e & -> & Hinv'). simpl. now apply IH with (done ++ [m]).
      * now apply IH with (done ++ [m]).
    + destruct (Hok m (or_introl eq_refl)) as [t Ht].
      unfold new_entry in Hx. rewrite Ht in Hx. discriminate.
Qed.

Lemma add_unread_add (a b : nat) (e : ChatSummary) :
  add_unread b (add_unread a e) = add_unread (a + b) e.
Proof. unfold add_unread. simpl. f_equal. lia. Qed.

Lemma add_unread_0 (e : ChatSummary) : add_unread 0 e = e.
Proof. destruct e. unfold add_unread. simpl. f_equal. lia. Qed.

(** [chats[chat_id]["unread_count"] += 1] touches one counter. *)
Lemma bump_unread_get (k : pystr) (chats chats1 : dict ChatSummary) :
  keyed_by_chat chats ->
  bump_unread k chats = Ok chats1 ->
  keyed_by_chat chats1
  /\ forall c, dict_get c chats1
               = if pystr_eqb k c
                 then option_map (add_unread 1) (dict_get c chats)
                 else dict_get c chats.
Proof.
  intros Hkey. unfold bump_unread.
  destruct (dict_get k chats) as [e|] eqn:Hget; [|discriminate].
  intros [= <-]. split.
  - apply keyed_by_chat_set; [|exact Hkey]. simpl.
    eapply keyed_by_chat_get; eauto.
  - intros c. destruct (pystr_eqb k c) eqn:E.
    + apply pystr_eqb_eq in E. subst c.
      rewrite dict_get_set_same, Hget. simpl. unfold add_unread.
      do 2 f_equal. lia.
    + apply pystr_eqb_neq in E. now rewrite dict_get_set_other.
Qed.

Lemma unread_in_cons (c : pystr) (m : Msg) (msgs : list Msg) :
  unread c (m :: msgs)
  = (if pystr_eqb (msg_chat m) c
        && counts_as_unread msg_is_read msg_is_from_me m
     then 1 else 0) + unread c msgs.
Proof.
  unfold unread_in, counts_as_unread. simpl.
  rewrite <- andb_assoc.
  now destruct (pystr_eqb (msg_chat m) c
                && (negb (msg_is_read m) && negb (msg_is_from_me m))).
Qed.

(** The second loop adds to every counter the unread messages of its
    chat, and changes nothing else. *)
Lemma unread_loop_get (msgs : list Msg) (chats chats' : dict ChatSummary) :
  keyed_by_chat chats ->
  loop2 msgs chats = Ok chats' ->
  keyed_by_chat chats'
  /\ forall c, dict_get c chats'
               = option_map (add_unread (unread c msgs)) (dict_get c chats).
Proof.
  revert chats. induction msgs as [|m msgs IH]; intros chats Hkey.
  - simpl. intros [= <-]. split; [exact Hkey|]. intros c.
    destruct (dict_get c chats); simpl; [|reflexivity].
    now rewrite add_unread_0.
  - simpl.
    destruct (counts_as_unread msg_is_read msg_is_from_me m) eqn:Hcount.
    + destruct (bump_unread (msg_chat m) chats) as [chats1|] eqn:Hbump;
        [|discriminate].
      simpl. intros Hloop.
      destruct (bump_unread_get _ Hkey Hbump) as [Hkey1 Hget1].
      destruct (IH _ Hkey1 Hloop) as [Hkey' Hget']. split; [exact Hkey'|].
      intros c. rewrite Hget', Hget1, unread_in_cons, Hcount, andb_true_r.
      destruct (pystr_eqb (msg_chat m) c); [|reflexivity].
      destruct (dict_get c chats); simpl; [|reflexivity].
      now rewrite add_unread_add.
    + intros Hloop. destruct (IH _ Hkey Hloop) as [Hkey' Hget'].
      split; [exact Hkey'|]. intros c.
      now rewrite Hget', unread_in_cons, Hcount, andb_false_r.
Qed.

Lemma unread_loop_total (msgs : list Msg) (chats : dict ChatSummary) :
  keyed_by_chat chats ->
  (forall m, In m msgs -> dict_get (msg_chat m) chats <> None) ->
  exists chats', loop2 msgs chats = Ok chats'.
Proof.
  revert chats. induction msgs as [|m msgs IH]; intros chats Hkey Hmem.
  - now exists chats.
  - simpl.
    assert (Hrest : forall x, In x msgs -> dict_get (msg_chat x) chats <> None)
      by (intros x Hx; apply Hmem; now right).
    destruct (counts_as_unread msg_is_read msg_is_from_me m); [|now apply IH].
    destruct (bump_unread (msg_chat m) chats) as [chats1|x] eqn:Hbump.
    + simpl. destruct (bump_unread_get _ Hkey Hbump) as [Hkey1 Hget1].
      apply IH; [exact Hkey1|]. intros x Hx. rewrite Hget1.
      destruct (pystr_eqb (msg_chat m) (msg_chat x)); [|now apply Hrest].
      specialize (Hrest x Hx). now destruct (dict_get (msg_chat x) chats).
    + unfold bump_unread in Hbump.
      specialize (Hmem m (or_introl eq_refl)).
      now destruct (dict_get (msg_chat m) chats).
Qed.

(** *** No chat is listed twice *)

Lemma dict_set_keys {V} (k k' : pystr) (v : V) (d : dict V) :
  In k' (map fst (dict_set k v d)) <-> k' = k \/ In k' (map fst d).
Proof.
  induction d as [|[k0 v0] d IH]; simpl.
  - intuition.
  - destruct (pystr_eqb k0 k) eqn:E; simpl.
    + apply pystr_eqb_eq in E. subst k0. intuition.
    + rewrite IH. intuition.
Qed.

Lemma dict_set_nodup {V} (k : pystr) (v : V) (d : dict V) :
  NoDup (map fst d) -> NoDup (map fst (dict_set k v d)).
Proof.
  induction d as [|[k0 v0] d IH]; simpl; intros Hnd.
  - repeat constructor. intros [].
  - inversion Hnd as [|? ? Hnotin Hnd']; subst.
    destruct (pystr_eqb k0 k) eqn:E; simpl; constructor; auto.
    rewrite dict_set_keys. intros [->|Hin]; [|contradiction].
    now rewrite pystr_eqb_refl in E.
Qed.

Lemma dict_get_in {V} (k : pystr) (v : V) (d : dict V) :
  NoDup (map fst d) -> In (k, v) d -> dict_get k d = Some v.
Proof.
  induction d as [|[k0 v0] d IH]; simpl; intros Hnd; [contradiction|].
  inversion Hnd as [|? ? Hnotin Hnd']; subst.
  intros [[= -> ->]|Hin].
  - now rewrite pystr_eqb_refl.
  - destruct (pystr_eqb k0 k) eqn:E; [|now apply IH].
    apply pystr_eqb_eq in E. subst k0.
    destruct Hnotin. now apply (in_map fst) in Hin.
Qed.

Lemma latest_loop_nodup (rest : list Msg) (chats chats' : dict ChatSummary) :
  NoDup (map fst chats) -> loop1 rest chats = Ok chats' ->
  NoDup (map fst chats').
Proof.
  revert chats. induction rest as [|m rest IH]; intros chats Hnd.
  - simpl. now intros [= <-].
  - simpl.
    destruct (is_newer msg_chat msg_timestamp m chats); [|now apply IH].
    destruct (new_entry msg_chat msg_is_group msg_timestamp msg_latest_text m);
      [|discriminate].
    simpl. apply IH. now apply dict_set_nodup.
Qed.

Lemma unread_loop_nodup (msgs : list Msg) (chats chats' : dict ChatSummary) :
  NoDup (map fst chats) -> loop2 msgs chats = Ok chats' ->
  NoDup (map fst chats').
Proof.
  revert chats. induction msgs as [|m msgs IH]; intros chats Hnd.
  - simpl. now intros [= <-].
  - simpl.
    destruct (counts_as_unread msg_is_read msg_is_from_me m); [|now apply IH].
    unfold bump_unread.
    destruct (dict_get (msg_chat m) chats); [|discriminate].
    simpl. apply IH. now apply dict_set_nodup.
Qed.

(** *** The summaries returned *)

Local Abbreviation summaries_of :=
  (summarize msg_chat msg_is_group msg_timestamp msg_is_read msg_is_from_me
             msg_latest_text).

Lemma summarize_inv (msgs : list Msg) (summaries : list ChatSummary) :
  summaries_of msgs = Ok summaries ->
  exists chats0 chats1,
    inv msgs chats0
    /\ keyed_by_chat chats1 /\ NoDup (map fst chats1)
    /\ summaries = dict_values chats1
    /\ forall c, dict_get c chats1
                 = option_map (add_unread (unread c msgs)) (dict_get c chats0).
Proof.
  unfold summarize.
  destruct (latest_loop msg_chat msg_is_group msg_timestamp msg_latest_text msgs [])
    as [chats0|] eqn:H1; [|discriminate].
  simpl.
  destruct (unread_loop msg_chat msg_is_read msg_is_from_me msgs chats0)
    as [chats1|] eqn:H2; [|discriminate].
  simpl. intros [= <-].
  pose proof (latest_loop_inv msgs latest_inv_nil H1) as Hinv. simpl in Hinv.
  destruct (unread_loop_get msgs (proj1 Hinv) H2) as [Hkey Hget].
  assert (Hnd : NoDup (map fst chats1)).
  { eapply unread_loop_nodup; [|exact H2].
    eapply latest_loop_nodup; [|exact H1]. constructor. }
  exists chats0, chats1. auto 6.
Qed.

(** The summary of a chat shows the first of its latest messages and
    counts its unread messages. *)
Theorem summarize_spec (msgs : list Msg) (summaries : list ChatSummary)
        (c : pystr) (s : ChatSummary) :
  summaries_of msgs = Ok summaries ->
  summary_for c summaries = Some s ->
  shows msgs c s /\ unread_count s = unread c msgs.
Proof.
  intros Hsum Hfor.
  destruct (summarize_inv _ Hsum) as (chats0 & chats1 & Hinv & Hkey & _ & -> & Hget).
  rewrite (summary_for_values c Hkey), Hget in Hfor.
  destruct (dict_get c chats0) as [e0|] eqn:H0; [|discriminate].
  injection Hfor as <-.
  destruct Hinv as (_ & Hshow & _). destruct (Hshow _ _ H0) as [Hu Hs].
  split; [|simpl; lia].
  destruct Hs as (pre & m & post & ? & ? & ? & ? & ? & ? & ? & ?).
  exists pre, m, post. simpl. repeat split; auto.
Qed.

(** Every chat with a message has a summary. *)
Theorem summarize_covers (msgs : list Msg) (summaries : list ChatSummary)
        (m : Msg) :
  summaries_of msgs = Ok summaries -> In m msgs ->
  exists s, summary_for (msg_chat m) summaries = Some s.
Proof.
  intros Hsum Hin.
  destruct (summarize_inv _ Hsum) as (chats0 & chats1 & Hinv & Hkey & _ & -> & Hget).
  rewrite (summary_for_values _ Hkey), Hget.
  destruct Hinv as (_ & _ & Hmem). specialize (Hmem m Hin).
  destruct (dict_get (msg_chat m) chats0); [simpl; eauto | contradiction].
Qed.

(** Every summary returned is the summary of its chat: no chat is listed
    twice. *)
Theorem summarize_unique (msgs : list Msg) (summaries : list ChatSummary)
        (s : ChatSummary) :
  summaries_of msgs = Ok summaries -> In s summaries ->
  summary_for (chat_id s) summaries = Some s.
Proof.
  intros Hsum Hin.
  destruct (summarize_inv _ Hsum) as (chats0 & chats1 & _ & Hkey & Hnd & -> & _).
  rewrite (summary_for_values _ Hkey).
  unfold dict_values in Hin. apply in_map_iff in Hin.
  destruct Hin as ([k v] & <- & Hin). simpl.
  pose proof (proj1 (Forall_forall _ _) Hkey _ Hin) as Hk. simpl in Hk.
  rewrite Hk. now apply dict_get_in.
Qed.

(** The loops run to the end when every latest text can be built. *)
Theorem summarize_total (msgs : list Msg) :
  (forall m, In m msgs -> exists t, msg_latest_text m = Ok t) ->
  exists summaries, summaries_of msgs = Ok summaries.
Proof.
  intros Hok. unfold summarize.
  destruct (latest_loop_total msgs latest_inv_nil Hok) as [chats0 H1].
  rewrite H1. simpl.
  pose proof (latest_loop_inv msgs latest_inv_nil H1) as (Hkey & _ & Hmem).
  simpl in Hmem.
  destruct (unread_loop_total msgs Hkey Hmem) as [chats1 H2].
  rewrite H2. simpl. eauto.
Qed.

End SummaryFacts.

(** ** Chat summaries of the two files *)

Example single_inbox_chats :
  whatsapp_api.chat_summaries Samples.single_inbox
  = Ok Samples.single_inbox_summaries.
Proof. reflexivity. Qed.

Example multi_inbox_chats :
  whatsapp_api_multisession.chat_summaries Samples.multi_inbox
  = Ok Samples.single_inbox_summaries.
Proof. reflexivity. Qed.

Example single_thread_chats :
  whatsapp_api.chat_summaries Samples.single_thread_shuffled
  = Ok Samples.thread_summaries.
Proof. reflexivity. Qed.

Example multi_thread_chats :
  whatsapp_api_multisession.chat_summaries Samples.multi_thread_shuffled
  = Ok Samples.thread_summaries.
Proof. reflexivity. Qed.

(** The summaries exist as soon as every content carries the keys the
    rendering reads. *)
Lemma single_chat_summaries_total (msgs : list whatsapp_api.Message) :
  single_renderable msgs ->
  exists summaries, whatsapp_api.chat_summaries msgs = Ok summaries.
Proof.
  intros Hok. apply summarize_total. intros m Hm.
  destruct (Hok m Hm) as [Ht Hy]. unfold whatsapp_api.latest_text.
  destruct (text (whatsapp_api.content m)) as [| |[|c s]];
    destruct (type (whatsapp_api.content m)); try contradiction; eauto.
Qed.

Lemma multi_chat_summaries_total (msgs : list whatsapp_api_multisession.Message) :
  multi_renderable msgs ->
  exists summaries, whatsapp_api_multisession.chat_summaries msgs = Ok summaries.
Proof.
  intros Hok. apply summarize_total. intros m Hm.
  specialize (Hok m Hm). unfold whatsapp_api_multisession.latest_text.
  destruct (type (whatsapp_api_multisession.content m)); [|contradiction].
  destruct (text (whatsapp_api_multisession.content m)); eauto.
Qed.

(** The latest timestamp of a chat does not depend on the order of the
    messages: it is the greatest of the chat's timestamps. *)
Lemma summarize_latest_timestamp_perm {Msg : Type}
      (msg_chat : Msg -> pystr) (msg_is_group : Msg -> bool)
      (msg_timestamp : Msg -> pystr) (msg_is_read msg_is_from_me : Msg -> bool)
      (msg_latest_text : Msg -> result (option pystr))
      (msgs msgs' : list Msg) (summaries : list ChatSummary)
      (c t3 : pystr) :
  Permutation msgs msgs' ->
  (exists m, In m msgs /\ msg_chat m = c /\ msg_timestamp m = t3) ->
  (forall m, In m msgs -> msg_chat m = c -> str_gt (msg_timestamp m) t3 = false) ->
  summarize msg_chat msg_is_group msg_timestamp msg_is_read msg_is_from_me
            msg_latest_text msgs' = Ok summaries ->
  exists s, summary_for c summaries = Some s /\ latest_timestamp s = t3.
Proof.
  intros Hperm (m & Hin & Hc & Ht) Hmax Hsum.
  assert (Hin' : In m msgs') by (eapply Permutation_in; eauto).
  destruct (summarize_covers _ _ _ _ _ _ _ m Hsum Hin') as [s Hs].
  rewrite Hc in Hs. exists s. split; [exact Hs|].
  destruct (summarize_spec _ _ _ _ _ _ _ _ Hsum Hs)
    as [(pre & m1 & post & Heq & Hc1 & _ & _ & _ & Hts & Hpre & Hpost) _].
  rewrite Hts.
  assert (Hle : str_gt (msg_timestamp m1) t3 = false).
  { apply Hmax; [|exact Hc1].
    eapply Permutation_in; [apply Permutation_sym; exact Hperm|].
    rewrite Heq. apply in_or_app. right. now left. }
  rewrite Heq in Hin'. apply in_app_or in Hin'.
  destruct Hin' as [Hp|[->|Hp]].
  - specialize (Hpre m Hp Hc). rewrite Ht in Hpre. congruence.
  - exact Ht.
  - specialize (Hpost m Hp Hc). rewrite Ht in Hpost.
    now apply str_gt_total.
Qed.

(** ** The order of the timestamps *)

(** [get_chats] orders timestamps as strings.  That is the order of the
    times they denote when all are written with one offset and one length
    of fraction, and need not be otherwise: of the three times of
    [ClockChange], the second is the greatest string and the third the
    latest time; a time without a fraction is a greater string than the
    same time half a second later; and one time in two spellings gives two
    different strings. *)
Lemma string_order_is_not_chronological :
  instant ClockChange.T1 = Some 1729986600000000000%Z
  /\ instant ClockChange.T2 = Some 1729989000000000000%Z
  /\ instant ClockChange.T3 = Some 1729991400000000000%Z
  /\ str_gt ClockChange.T2 ClockChange.T1 = true
  /\ str_gt ClockChange.T2 ClockChange.T3 = true
  /\ instant ClockChange.whole = Some 1714557600000000000%Z
  /\ instant ClockChange.half_past = Some 1714557600500000000%Z
  /\ str_gt ClockChange.whole ClockChange.half_past = true
  /\ instant ClockChange.numeric_utc = instant ClockChange.whole
  /\ str_gt ClockChange.whole ClockChange.numeric_utc = true.
Proof. repeat split; vm_compute; reflexivity. Qed.

(** Of two messages of one chat at the same time, written [+00:00] and
    [Z], both files show the second. *)
Lemma same_time_second_spelling_shown :
  whatsapp_api.chat_summaries ClockChange.single_same_time
  = Ok [ mkChatSummary (py "a") false (Some (py "second")) ClockChange.whole 2 ]
  /\ whatsapp_api_multisession.chat_summaries ClockChange.multi_same_time
     = Ok [ mkChatSummary (py "a") false (Some (py "second")) ClockChange.whole 2 ].
Proof. split; vm_compute; reflexivity. Qed.

(** C2 does not hold on the code.  The summary is to show a message with
    the latest timestamp of the chat.  Of the two messages of
    [ClockChange] sent at 00:30 UTC and at 01:10 UTC, written
    [2024-10-27T02:30:00+02:00] and [2024-10-27T02:10:00+01:00], both
    files show the one of 00:30 UTC, in either order of the messages: the
    timestamps are compared as strings. *)
Theorem latest_message_follows_string_order :
  whatsapp_api.chat_summaries [ClockChange.single_two; ClockChange.single_three]
  = Ok (ClockChange.shows_two 2)
  /\ whatsapp_api.chat_summaries [ClockChange.single_three; ClockChange.single_two]
     = Ok (ClockChange.shows_two 2)
  /\ whatsapp_api_multisession.chat_summaries
       [ClockChange.multi_two; ClockChange.multi_three]
     = Ok (ClockChange.shows_two 2)
  /\ whatsapp_api_multisession.chat_summaries
       [ClockChange.multi_three; ClockChange.multi_two]
     = Ok (ClockChange.shows_two 2).
Proof. repeat split; vm_compute; reflexivity. Qed.

(** With the timestamps ordered as [get_chats] orders them, as strings
    ([str_gt], code point by code point), the summary of every chat that
    has a message shows in both files a message of that chat whose
    timestamp no other message of the chat exceeds, and every earlier
    message of the chat has a strictly smaller timestamp: among equal
    greatest strings the first seen wins.  The summaries exist whenever
    every content carries the keys read. *)
Theorem latest_message_first_seen_maximum :
  (forall (msgs : list whatsapp_api.Message) summaries m0,
      whatsapp_api.chat_summaries msgs = Ok summaries -> In m0 msgs ->
      exists s,
        summary_for (whatsapp_api.chat (whatsapp_api.source m0)) summaries = Some s
        /\ single_shows msgs (whatsapp_api.chat (whatsapp_api.source m0)) s)
  /\ (forall (msgs : list whatsapp_api_multisession.Message) summaries m0,
      whatsapp_api_multisession.chat_summaries msgs = Ok summaries -> In m0 msgs ->
      exists s,
        summary_for (whatsapp_api_multisession.chat_id m0) summaries = Some s
        /\ multi_shows msgs (whatsapp_api_multisession.chat_id m0) s)
  /\ (forall msgs, single_renderable msgs ->
                   exists summaries, whatsapp_api.chat_summaries msgs = Ok summaries)
  /\ (forall msgs, multi_renderable msgs ->
                   exists summaries,
                     whatsapp_api_multisession.chat_summaries msgs = Ok summaries).
Proof.
  split; [|split; [|split]]; [intros msgs summaries m0 Hsum Hin ..| |].
  - destruct (summarize_covers _ _ _ _ _ _ _ m0 Hsum Hin) as [s Hs].
    exists s. split; [exact Hs|].
    exact (proj1 (summarize_spec _ _ _ _ _ _ _ _ Hsum Hs)).
  - destruct (summarize_covers _ _ _ _ _ _ _ m0 Hsum Hin) as [s Hs].
    exists s. split; [exact Hs|].
    exact (proj1 (summarize_spec _ _ _ _ _ _ _ _ Hsum Hs)).
  - exact single_chat_summaries_total.
  - exact multi_chat_summaries_total.
Qed.

Lemma latest_message_first_seen_maximum_witness :
  (exists s, summary_for (py "a") Samples.single_inbox_summaries = Some s
             /\ single_shows Samples.single_inbox (py "a") s)
  /\ (exists s, summary_for (py "a") Samples.single_inbox_summaries = Some s
                /\ multi_shows Samples.multi_inbox (py "a") s).
Proof.
  split.
  - apply (proj1 latest_message_first_seen_maximum Samples.single_inbox
             Samples.single_inbox_summaries
             (Samples.single_msg (py "m2") Samples.T2 (py "a")
                (Samples.said "two") false false)).
    + reflexivity.
    + simpl. auto.
  - apply (proj1 (proj2 latest_message_first_seen_maximum) Samples.multi_inbox
             Samples.single_inbox_summaries
             (Samples.multi_msg (py "m2") Samples.T2 (py "a")
                (Samples.said "two") false false)).
    + reflexivity.
    + simpl. auto.
Defined.

(** C6 does not hold on the code.  For the three messages of [ClockChange],
    sent at 23:50, 00:30 and 01:10 UTC, the latest timestamp of the chat is
    to be the third, [2024-10-27T02:10:00+01:00].  In each of the six
    orders of the messages both files give the second,
    [2024-10-27T02:30:00+02:00], the greatest of the three strings. *)
Theorem latest_timestamp_follows_string_order :
  Forall (fun msgs => whatsapp_api.chat_summaries msgs = Ok (ClockChange.shows_two 3))
         (ClockChange.orders ClockChange.single_one ClockChange.single_two
                             ClockChange.single_three)
  /\ Forall (fun msgs => whatsapp_api_multisession.chat_summaries msgs
                         = Ok (ClockChange.shows_two 3))
            (ClockChange.orders ClockChange.multi_one ClockChange.multi_two
                                ClockChange.multi_three).
Proof. split; repeat constructor. Qed.

(** With the timestamps ordered as [get_chats] orders them, as strings
    ([str_gt], code point by code point): when [t3] is the greatest
    timestamp among the messages of a chat, the summary of that chat
    carries [t3] in both files whatever the order in which the messages
    are given.  The summaries exist whenever every content carries the
    keys read. *)
Theorem latest_timestamp_order_independent :
  (forall (msgs msgs' : list whatsapp_api.Message) summaries c t3,
      Permutation msgs msgs' ->
      (exists m, In m msgs /\ whatsapp_api.chat (whatsapp_api.source m) = c
                 /\ whatsapp_api.timestamp m = t3) ->
      (forall m, In m msgs -> whatsapp_api.chat (whatsapp_api.source m) = c ->
                 str_gt (whatsapp_api.timestamp m) t3 = false) ->
      whatsapp_api.chat_summaries msgs' = Ok summaries ->
      exists s, summary_for c summaries = Some s /\ latest_timestamp s = t3)
  /\ (forall (msgs msgs' : list whatsapp_api_multisession.Message) summaries c t3,
      Permutation msgs msgs' ->
      (exists m, In m msgs /\ whatsapp_api_multisession.chat_id m = c
                 /\ whatsapp_api_multisession.timestamp m = t3) ->
      (forall m, In m msgs -> whatsapp_api_multisession.chat_id m = c ->
                 str_gt (whatsapp_api_multisession.timestamp m) t3 = false) ->
      whatsapp_api_multisession.chat_summaries msgs' = Ok summaries ->
      exists s, summary_for c summaries = Some s /\ latest_timestamp s = t3)
  /\ (forall msgs, single_renderable msgs ->
                   exists summaries, whatsapp_api.chat_summaries msgs = Ok summaries)
  /\ (forall msgs, multi_renderable msgs ->
                   exists summaries,
                     whatsapp_api_multisession.chat_summaries msgs = Ok summaries).
Proof.
  split; [|split; [|split]];
    [intros msgs msgs' summaries c t3 Hperm Hex Hmax Hsum ..| |].
  - exact (summarize_latest_timestamp_perm _ _ _ _ _ _ Hperm Hex Hmax Hsum).
  - exact (summarize_latest_timestamp_perm _ _ _ _ _ _ Hperm Hex Hmax Hsum).
  - exact single_chat_summaries_total.
  - exact multi_chat_summaries_total.
Qed.

Lemma latest_timestamp_order_independent_witness :
  (exists s, summary_for (py "a") Samples.thread_summaries = Some s
             /\ latest_timestamp s = Samples.T3)
  /\ (exists s, summary_for (py "a") Samples.thread_summaries = Some s
                /\ latest_timestamp s = Samples.T3).
Proof.
  split.
  - apply (proj1 latest_timestamp_order_independent Samples.single_thread
             Samples.single_thread_shuffled Samples.thread_summaries
             (py "a") Samples.T3).
    + unfold Samples.single_thread, Samples.single_thread_shuffled.
      apply Permutation_sym. exact (Permutation_cons_append [_; _] _).
    + eexists. split; [right; right; left; reflexivity|]. split; reflexivity.
    + intros m [<-|[<-|[<-|[]]]] _; reflexivity.
    + reflexivity.
  - apply (proj1 (proj2 latest_timestamp_order_independent) Samples.multi_thread
             Samples.multi_thread_shuffled Samples.thread_summaries
             (py "a") Samples.T3).
    + unfold Samples.multi_thread, Samples.multi_thread_shuffled.
      apply Permutation_sym. exact (Permutation_cons_append [_; _] _).
    + eexists. split; [right; right; left; reflexivity|]. split; reflexivity.
    + intros m [<-|[<-|[<-|[]]]] _; reflexivity.
    + reflexivity.
Defined.



(** ** The two aggregations side by side *)

Section SummaryExt.

Variables A B : Type.
Variable chatA : A -> pystr.
Variable chatB : B -> pystr.
Variable groupA : A -> bool.
Variable groupB : B -> bool.
Variable tsA : A -> pystr.
Variable tsB : B -> pystr.
Variable readA : A -> bool.
Variable readB : B -> bool.
Variable fromA : A -> bool.
Variable fromB : B -> bool.
Variable textA : A -> result (option pystr).
Variable textB : B -> result (option pystr).

(** Two messages the loops cannot tell apart. *)
Local Abbreviation alike :=
  (fun (a : A) (b : B) =>
     chatA a = chatB b /\ groupA a = groupB b /\ tsA a = tsB b
     /\ readA a = readB b /\ fromA a = fromB b /\ textA a = textB b).

Lemma latest_loop_ext (l1 : list A) (l2 : list B) :
  Forall2 alike l1 l2 ->
  forall chats, latest_loop chatA groupA tsA textA l1 chats
                = latest_loop chatB groupB tsB textB l2 chats.
Proof.
  induction 1 as [|a b l1 l2 (Hc & Hg & Ht & _ & _ & Hx) _ IH]; intros chats;
    simpl; [reflexivity|].
  unfold is_newer, new_entry. rewrite Hc, Hg, Ht, Hx.
  destruct (dict_get (chatB b) chats) as [e|];
    [destruct (str_gt (tsB b) (latest_timestamp e)); [|apply IH]|];
    destruct (textB b); simpl; auto.
Qed.

Lemma unread_loop_ext (l1 : list A) (l2 : list B) :
  Forall2 alike l1 l2 ->
  forall chats, unread_loop chatA readA fromA l1 chats
                = unread_loop chatB readB fromB l2 chats.
Proof.
  induction 1 as [|a b l1 l2 (Hc & _ & _ & Hr & Hf & _) _ IH]; intros chats;
    simpl; [reflexivity|].
  unfold counts_as_unread. rewrite Hc, Hr, Hf.
  destruct (negb (readB b) && negb (fromB b)); [|apply IH].
  destruct (bump_unread (chatB b) chats); simpl; auto.
Qed.

Lemma summarize_ext (l1 : list A) (l2 : list B) :
  Forall2 alike l1 l2 ->
  summarize chatA groupA tsA readA fromA textA l1
  = summarize chatB groupB tsB readB fromB textB l2.
Proof.
  intros H. unfold summarize. rewrite (latest_loop_ext H).
  destruct (latest_loop chatB groupB tsB textB l2 []); simpl; [|reflexivity].
  now rewrite (unread_loop_ext H).
Qed.

End SummaryExt.

(** On messages with a text that is not empty and a type, the two files
    agree. *)
Lemma chat_summaries_agree_on_text
      (l1 : list whatsapp_api.Message) (l2 : list whatsapp_api_multisession.Message) :
  Forall2 same_fields l1 l2 ->
  (forall m, In m l1 ->
             exists c s t, whatsapp_api.content m = mkContent (Val (c :: s)) (Some t)) ->
  whatsapp_api.chat_summaries l1 = whatsapp_api_multisession.chat_summaries l2.
Proof.
  intros Hsame Htext. apply summarize_ext.
  induction Hsame as [|a b l1 l2 (Hc & Hg & Hk & Ht & Hr & Hf) _ IH];
    constructor.
  - repeat split; auto.
    unfold whatsapp_api.latest_text, whatsapp_api_multisession.latest_text.
    rewrite <- Hk. destruct (Htext a (or_introl eq_refl)) as (c & s & t & ->).
    reflexivity.
  - apply IH. intros m Hm. apply Htext. now right.
Qed.

(** C3. A message whose content has a [null] text is summarised by
    [whatsapp_api.py] with the bracketed type and by
    [whatsapp_api_multisession.py] with [None]; an empty text likewise stays
    empty there.  The two aggregations differ on the same fields. *)
Theorem chat_summaries_differ_without_text :
  same_fields
    (Samples.single_msg (py "m1") Samples.T1 (py "a") Samples.image_null false false)
    (Samples.multi_msg (py "m1") Samples.T1 (py "a") Samples.image_null false false)
  /\ whatsapp_api.chat_summaries
       [Samples.single_msg (py "m1") Samples.T1 (py "a") Samples.image_null false false]
     = Ok [mkChatSummary (py "a") false (Some (py "[image]")) Samples.T1 1]
  /\ whatsapp_api_multisession.chat_summaries
       [Samples.multi_msg (py "m1") Samples.T1 (py "a") Samples.image_null false false]
     = Ok [mkChatSummary (py "a") false None Samples.T1 1]
  /\ whatsapp_api.chat_summaries
       [Samples.single_msg (py "m1") Samples.T1 (py "a") Samples.image_empty false false]
     = Ok [mkChatSummary (py "a") false (Some (py "[image]")) Samples.T1 1]
  /\ whatsapp_api_multisession.chat_summaries
       [Samples.multi_msg (py "m1") Samples.T1 (py "a") Samples.image_empty false false]
     = Ok [mkChatSummary (py "a") false (Some []) Samples.T1 1].
Proof. repeat split. Qed.

(** Where the key ["text"] is missing it is [whatsapp_api.py] that fails. *)
Example chat_summaries_differ_on_missing_text :
  whatsapp_api.chat_summaries
    [Samples.single_msg (py "m1") Samples.T1 (py "a") Samples.image_bare false false]
  = Raise (KeyError (py "text"))
  /\ whatsapp_api_multisession.chat_summaries
       [Samples.multi_msg (py "m1") Samples.T1 (py "a") Samples.image_bare false false]
     = Ok [mkChatSummary (py "a") false (Some (py "[image]")) Samples.T1 1].
Proof. split; reflexivity. Qed.

(** ** Identifier normalisation *)

Section PhoneFacts.
Import whatsapp_api_multisession.

Lemma in_range_spec (lo len c : N) :
  in_range lo len c = true <-> (lo <= c < lo + len)%N.
Proof.
  unfold in_range. rewrite andb_true_iff, N.leb_le, N.ltb_lt. tauto.
Qed.

(** What [re.sub] leaves holds no character of the stripped class. *)
Lemma re_sub_strip_clean (x : pystr) (c : N) :
  In c (re_sub_strip x) -> strip_class c = false.
Proof.
  unfold re_sub_strip. rewrite filter_In. intros [_ H].
  now destruct (strip_class c).
Qed.

Lemma re_sub_strip_fixed (s : pystr) :
  (forall c, In c s -> strip_class c = false) -> re_sub_strip s = s.
Proof.
  unfold re_sub_strip. induction s as [|c s IH]; intros H; simpl; [reflexivity|].
  rewrite (H c (or_introl eq_refl)). simpl. f_equal. apply IH.
  intros c' Hc'. apply H. now right.
Qed.

Lemma validate_phone_number_unfold (x : pystr) :
  validate_phone_number x
  = if re_match_international (prefixed (re_sub_strip x))
    then Ok (prefixed (re_sub_strip x))
    else Raise (HTTPException 400 (py "Invalid international phone number format")).
Proof.
  unfold validate_phone_number, prefixed.
  now destruct (re_match_international _).
Qed.

(** After the prefixing step the string is [+] followed by characters that
    survived [re.sub]. *)
Lemma prefixed_clean (s : pystr) :
  (forall c, In c s -> strip_class c = false) ->
  exists t, prefixed s = 0x2b%N :: t
            /\ (forall c, In c t -> strip_class c = false)
            /\ (forall c, In c t -> In c s).
Proof.
  intros Hclean. unfold prefixed.
  destruct (startswith (py "+") s) eqn:Hplus;
    destruct (startswith (py "00") s) eqn:Hzz; cbn [orb negb].
  1, 2: destruct s as [|c s]; [discriminate|];
    change (startswith (py "+") (c :: s)) with (N.eqb 0x2b c && true) in Hplus;
    rewrite andb_true_r in Hplus; apply N.eqb_eq in Hplus; subst c;
    now specialize (Hclean _ (or_introl eq_refl)).
  - exists (skipn 2 s). split; [reflexivity|].
    assert (Hsub : forall c, In c (skipn 2 s) -> In c s).
    { intros c Hc. rewrite <- (firstn_skipn 2 s). apply in_or_app. now right. }
    split; auto.
  - exists s. split; [reflexivity|]. auto.
Qed.

(** A match is [+], a digit 1-9 and 1 to 14 digits, then the end or a
    final newline. *)
Lemma re_match_international_inv (p : pystr) :
  re_match_international p = true ->
  exists d rest k,
    p = 0x2b%N :: d :: rest /\ re_1_9 d = true
    /\ 1 <= k <= 14 /\ List.length (firstn k rest) = k
    /\ forallb re_digit (firstn k rest) = true
    /\ at_dollar (skipn k rest) = true.
Proof.
  destruct p as [|plus [|d rest]]; try discriminate.
  unfold re_match_international.
  rewrite !andb_true_iff. intros [[Hplus Hd] Hex].
  apply N.eqb_eq in Hplus. subst plus.
  apply existsb_exists in Hex. destruct Hex as (k & Hk & Hm).
  apply in_rev in Hk. apply in_seq in Hk.
  unfold digits_then_end in Hm. rewrite !andb_true_iff in Hm.
  destruct Hm as [[Hlen Hdig] Hend]. apply Nat.eqb_eq in Hlen.
  exists d, rest, k. repeat split; auto; lia.
Qed.

Lemma re_match_international_intro (d : N) (rest : pystr) :
  re_1_9 d = true -> 1 <= List.length rest <= 14 ->
  forallb re_digit rest = true ->
  re_match_international (0x2b%N :: d :: rest) = true.
Proof.
  intros Hd Hlen Hdig. unfold re_match_international.
  rewrite N.eqb_refl, Hd. cbn [andb].
  apply existsb_exists. exists (List.length rest). split.
  - apply in_rev. rewrite rev_involutive. apply in_seq. lia.
  - unfold digits_then_end.
    rewrite firstn_all, skipn_all, Nat.eqb_refl, Hdig. reflexivity.
Qed.

(** What [validate_phone_number] returns. *)
Lemma validate_phone_number_inv (x y : pystr) :
  validate_phone_number x = Ok y ->
  exists d rest,
    y = 0x2b%N :: d :: rest /\ re_1_9 d = true
    /\ 1 <= List.length rest <= 14 /\ forallb re_digit rest = true
    /\ (forall c, In c (d :: rest) -> strip_class c = false)
    /\ (forall c, In c (d :: rest) -> In c x).
Proof.
  rewrite validate_phone_number_unfold.
  destruct (re_match_international _) eqn:Hm; [|discriminate].
  intros [= <-].
  destruct (prefixed_clean _ (re_sub_strip_clean x)) as (t & Ht & Hclean & Hsub).
  rewrite Ht in *.
  destruct (re_match_international_inv _ Hm)
    as (d & rest & k & Heq & Hd & Hk & Hlen & Hdig & Hend).
  injection Heq as ->. exists d, rest.
  assert (Hnil : skipn k rest = []).
  { destruct (skipn k rest) as [|c [|c' r]] eqn:Hs; try discriminate; auto.
    simpl in Hend. apply N.eqb_eq in Hend. subst c.
    assert (Hin : In 0x0a%N (d :: rest)).
    { right. rewrite <- (firstn_skipn k rest), Hs. apply in_or_app. right. now left. }
    now specialize (Hclean _ Hin). }
  assert (Hall : firstn k rest = rest).
  { rewrite <- (firstn_skipn k rest) at 2. rewrite Hnil. now rewrite app_nil_r. }
  rewrite Hall in *. repeat split; auto; try lia.
  intros c Hc. specialize (Hsub c Hc).
  unfold re_sub_strip in Hsub. now apply filter_In in Hsub.
Qed.

End PhoneFacts.

Section PhoneResults.
Import whatsapp_api_multisession.

Lemma prefixed_leading_digit (d : N) (rest : pystr) :
  re_1_9 d = true -> prefixed (d :: rest) = 0x2b%N :: d :: rest.
Proof.
  intros Hd. apply in_range_spec in Hd. unfold prefixed.
  change (startswith (py "+") (d :: rest)) with (N.eqb 0x2b d && true).
  change (startswith (py "00") (d :: rest))
    with (N.eqb 0x30 d && startswith (py "0") rest).
  replace (N.eqb 0x2b d) with false by (symmetry; apply N.eqb_neq; lia).
  replace (N.eqb 0x30 d) with false by (symmetry; apply N.eqb_neq; lia).
  reflexivity.
Qed.

Lemma re_sub_strip_plus (t : pystr) :
  re_sub_strip (0x2b%N :: t) = re_sub_strip t.
Proof. reflexivity. Qed.

(** A returned identifier is a fixed point of the normalisation. *)
Lemma validate_phone_number_fixed (x y : pystr) :
  validate_phone_number x = Ok y -> validate_phone_number y = Ok y.
Proof.
  intros Hx.
  destruct (validate_phone_number_inv _ Hx)
    as (d & rest & -> & Hd & Hlen & Hdig & Hclean & _).
  rewrite validate_phone_number_unfold, re_sub_strip_plus,
    (@re_sub_strip_fixed _ Hclean), (@prefixed_leading_digit d rest Hd),
    (@re_match_international_intro d rest Hd Hlen Hdig).
  reflexivity.
Qed.

(** A returned identifier has the canonical shape, its digits being those
    of [\d]. *)
Lemma validate_phone_number_shape (x y : pystr) :
  validate_phone_number x = Ok y -> canonical_unicode y = true.
Proof.
  intros Hx.
  destruct (validate_phone_number_inv _ Hx)
    as (d & rest & -> & Hd & Hlen & Hdig & _ & _).
  unfold canonical_unicode. rewrite N.eqb_refl, Hd, Hdig.
  replace (Nat.leb 1 (List.length rest)) with true
    by (symmetry; apply Nat.leb_le; lia).
  replace (Nat.leb (List.length rest) 14) with true
    by (symmetry; apply Nat.leb_le; lia).
  reflexivity.
Qed.

(** Below U+0080 the only digits of [\d] are [0] to [9]. *)
Lemma re_digit_ascii (c : N) :
  (c < 128)%N -> re_digit c = true -> ascii_digit c = true.
Proof.
  intros Hc. unfold re_digit. rewrite orb_true_iff. intros [H|H].
  - apply existsb_exists in H. destruct H as (lo & Hlo & Hin).
    assert (Hruns : forallb (fun lo => N.eqb lo 0x30 || N.leb 128 lo)
                            decimal_runs = true) by reflexivity.
    rewrite forallb_forall in Hruns. specialize (Hruns lo Hlo).
    apply orb_true_iff in Hruns. destruct Hruns as [E|E].
    + apply N.eqb_eq in E. now subst lo.
    + apply N.leb_le in E. apply in_range_spec in Hin. lia.
  - apply in_range_spec in H. lia.
Qed.

(** On input below U+0080 a returned identifier is canonical. *)
Lemma validate_phone_number_ascii (x y : pystr) :
  (forall c, In c x -> (c < 128)%N) ->
  validate_phone_number x = Ok y -> canonical y = true.
Proof.
  intros Hascii Hx.
  destruct (validate_phone_number_inv _ Hx)
    as (d & rest & -> & Hd & Hlen & Hdig & _ & Hsub).
  unfold canonical. rewrite N.eqb_refl, Hd.
  replace (Nat.leb 1 (List.length rest)) with true
    by (symmetry; apply Nat.leb_le; lia).
  replace (Nat.leb (List.length rest) 14) with true
    by (symmetry; apply Nat.leb_le; lia).
  cbn [andb]. apply forallb_forall. intros c Hc.
  apply re_digit_ascii.
  - apply Hascii, Hsub. now right.
  - rewrite forallb_forall in Hdig. now apply Hdig.
Qed.

End PhoneResults.

(** C4. The normalisation either returns or raises the 400 of an invalid
    format, and it turns a leading [00] into [+]; but what it returns need
    not be canonical: [\d] also accepts digits that are not [0] to [9], so
    "1" followed by U+0662 comes back as an identifier. *)
Theorem validate_phone_number_accepts_other_digits :
  whatsapp_api_multisession.validate_phone_number [0x31; 0x662]%N
  = Ok [0x2b; 0x31; 0x662]%N
  /\ canonical [0x2b; 0x31; 0x662]%N = false
  /\ whatsapp_api_multisession.validate_phone_number (py "0044123456789")
     = Ok (py "+44123456789")
  /\ (forall x, (exists y, whatsapp_api_multisession.validate_phone_number x = Ok y)
                \/ whatsapp_api_multisession.validate_phone_number x
                   = Raise (HTTPException 400
                              (py "Invalid international phone number format"))).
Proof.
  repeat split.
  intros x. rewrite validate_phone_number_unfold.
  destruct (whatsapp_api_multisession.re_match_international _); eauto.
Qed.

(** C5. Normalising a returned identifier returns it unchanged. *)
Theorem validate_phone_number_idempotent (x y : pystr) :
  whatsapp_api_multisession.validate_phone_number x = Ok y ->
  whatsapp_api_multisession.validate_phone_number y = Ok y.
Proof. apply validate_phone_number_fixed. Qed.

Lemma validate_phone_number_idempotent_witness :
  whatsapp_api_multisession.validate_phone_number (py "+1 (415) 555-0100")
  = Ok (py "+14155550100")
  /\ whatsapp_api_multisession.validate_phone_number (py "+14155550100")
     = Ok (py "+14155550100").
Proof.
  split; [reflexivity|].
  apply (validate_phone_number_idempotent (py "+1 (415) 555-0100")).
  reflexivity.
Defined.

(** ** Handlers against the Go service *)

(** Unfolds the monad of a handler down to the answers of the backend. *)
Ltac run_gateway :=
  cbv beta iota zeta delta
    [bind ret raise lift send client_get client_get_params client_post
     client_post_json client_delete return_json response_json
     try_except_RequestError try_except_Exception getattr_sessions fst snd].

(** Splits on whatever the handler still inspects. *)
Ltac split_handler :=
  repeat (run_gateway;
          match goal with
          | |- context [match ?x with _ => _ end] =>
              lazymatch x with
              | context [match _ with _ => _ end] => fail
              | _ => destruct x eqn:?
              end
          end).

(** A log cannot be its own proper extension. *)
Lemma log_not_extended {A} (log more : list A) (x : A) :
  log = log ++ x :: more -> False.
Proof.
  intros H. apply (f_equal (@List.length A)) in H.
  rewrite length_app in H. simpl in H. lia.
Qed.

(** Closes one path of a handler run for the transport-failure property. *)
Ltac close_transport_path :=
  let Hlog := fresh "Hlog" in
  let Hfail := fresh "Hfail" in
  intros [= <- <-] ? ? ? Hlog Hfail;
  first
    [ exfalso; eapply log_not_extended; exact Hlog
    | apply app_inv_head in Hlog; injection Hlog as <- <-;
      first
        [ split; reflexivity
        | exfalso;
          match goal with
          | H : ?b ?l _ = _ |- _ =>
              let X := fresh in
              pose proof (eq_trans (eq_sym H) Hfail) as X; discriminate X
          end ] ].

Ltac unfold_single :=
  cbv delta
    [whatsapp_api.run whatsapp_api.get_qr_code whatsapp_api.get_auth_status
     whatsapp_api.logout whatsapp_api.pair_phone whatsapp_api.get_messages
     whatsapp_api.get_chat_messages whatsapp_api.update_read_status
     whatsapp_api.get_chats whatsapp_api.health_check].

Ltac unfold_multi :=
  cbv delta
    [whatsapp_api_multisession.run whatsapp_api_multisession.create_session
     whatsapp_api_multisession.list_sessions
     whatsapp_api_multisession.get_session_status
     whatsapp_api_multisession.connect_session
     whatsapp_api_multisession.disconnect_session
     whatsapp_api_multisession.delete_session
     whatsapp_api_multisession.get_qr_code
     whatsapp_api_multisession.get_auth_status
     whatsapp_api_multisession.pair_phone
     whatsapp_api_multisession.get_messages
     whatsapp_api_multisession.get_chat_messages
     whatsapp_api_multisession.update_read_status
     whatsapp_api_multisession.get_unread_count
     whatsapp_api_multisession.get_chats
     whatsapp_api_multisession.legacy_get_auth_status
     whatsapp_api_multisession.legacy_get_messages
     whatsapp_api_multisession.health_check].

(** C10. In both files, for every operation that forwards to the Go
    service: when the request it sends fails with an [httpx.RequestError]
    (a refused connection, a timeout, a failed name lookup), the operation
    raises 503 "Go service unavailable" and has sent that one request
    only. *)
Theorem transport_failure_is_503_without_retry :
  (forall (op : whatsapp_api.operation) be log r log',
      whatsapp_api.run op be log = (r, log') ->
      forall req more e,
        log' = log ++ req :: more ->
        be log req = Failed e ->
        r = Raise (HTTPException 503 (py "Go service unavailable")) /\ more = [])
  /\ (forall (op : whatsapp_api_multisession.operation) be log r log',
      whatsapp_api_multisession.run op be log = (r, log') ->
      forall req more e,
        log' = log ++ req :: more ->
        be log req = Failed e ->
        r = Raise (HTTPException 503 (py "Go service unavailable")) /\ more = []).
Proof.
  split; intros op be log r log'.
  - destruct op; unfold_single; split_handler; close_transport_path.
  - destruct op; unfold_multi; split_handler; close_transport_path.
Qed.

Lemma transport_failure_is_503_without_retry_witness :
  (fst (whatsapp_api.run whatsapp_api.op_get_qr_code Samples.down [])
   = Raise (HTTPException 503 (py "Go service unavailable"))
   /\ @nil Request = [])
  /\ (fst (whatsapp_api_multisession.run
             (whatsapp_api_multisession.op_create_session
                (whatsapp_api_multisession.mkCreateSessionRequest
                   (py "+49 170 1234567")))
             Samples.down [])
      = Raise (HTTPException 503 (py "Go service unavailable"))
      /\ @nil Request = []).
Proof.
  split.
  - apply (proj1 transport_failure_is_503_without_retry
             whatsapp_api.op_get_qr_code Samples.down [] _
             [mkRequest GET (GO_SERVICE_URL ++ py "/qr") None None]
             eq_refl
             (mkRequest GET (GO_SERVICE_URL ++ py "/qr") None None) []
             ConnectError eq_refl eq_refl).
  - apply (proj2 transport_failure_is_503_without_retry
             (whatsapp_api_multisession.op_create_session
                (whatsapp_api_multisession.mkCreateSessionRequest
                   (py "+49 170 1234567")))
             Samples.down [] _
             [mkRequest POST (GO_SERVICE_URL ++ py "/sessions/create")
                        (Some [(py "phone_number", VStr (py "+491701234567"))])
                        None]
             eq_refl
             (mkRequest POST (GO_SERVICE_URL ++ py "/sessions/create")
                        (Some [(py "phone_number", VStr (py "+491701234567"))])
                        None)
             [] ConnectError eq_refl eq_refl).
Defined.

(** C9. In both files the health check returns, whatever the Go service
    does with the probe: "healthy" on status 200, "degraded" on any other
    status, "unhealthy" when the probe raises; and it sends the probe
    once. *)
Theorem health_check_never_raises :
  (forall (be : backend whatsapp_api.Message) log,
      whatsapp_api.health_check be log
      = (Ok (match be log single_probe with
             | Replied response =>
                 if Z.eqb (status_code response) 200
                 then health_report "healthy" "running"
                 else health_report "degraded" "issues"
             | Failed _ | Crashed _ => health_report "unhealthy" "down"
             end),
         log ++ [single_probe]))
  /\ (forall (be : backend whatsapp_api_multisession.Message) log,
      whatsapp_api_multisession.health_check be log
      = (Ok (match be log sessions_list_request with
             | Replied response =>
                 if Z.eqb (status_code response) 200
                 then health_report "healthy" "running"
                 else health_report "degraded" "issues"
             | Failed _ | Crashed _ => health_report "unhealthy" "down"
             end),
         log ++ [sessions_list_request])).
Proof.
  split; intros be log.
  - unfold_single. run_gateway. fold single_probe.
    destruct (be log single_probe) as [response|e|name]; try reflexivity.
    now destruct (Z.eqb (status_code response) 200).
  - unfold_multi. run_gateway. fold sessions_list_request.
    destruct (be log sessions_list_request) as [response|e|name]; try reflexivity.
    now destruct (Z.eqb (status_code response) 200).
Qed.

(** ** Pair-phone translation *)




(** ** Legacy endpoints *)

(** [list_sessions] hands back the decoded dictionary, never an instance of
    [SessionListResponse]. *)
Lemma list_sessions_returns_dict
      (be : backend whatsapp_api_multisession.Message) log v log' :
  whatsapp_api_multisession.list_sessions be log = (Ok v, log') ->
  exists data, v = Body data.
Proof.
  unfold_multi. split_handler; intros [= <- <-]; eauto.
Qed.

(** Whatever the Go service answers, a legacy endpoint sends the listing
    request and nothing else, and does not report "No sessions available":
    [sessions_response.sessions] is asked of a dictionary. *)
Lemma legacy_never_delegates
      (be : backend whatsapp_api_multisession.Message) log :
  (exists r, whatsapp_api_multisession.legacy_get_auth_status be log
             = (Raise r, log ++ [sessions_list_request])
             /\ r <> HTTPException 404 (py "No sessions available"))
  /\ (exists r, whatsapp_api_multisession.legacy_get_messages be log
                = (Raise r, log ++ [sessions_list_request])
                /\ r <> HTTPException 404 (py "No sessions available")).
Proof.
  split; unfold_multi; split_handler;
    (eexists; split; [reflexivity | discriminate]).
Qed.

(** C8 fails on the code.  With no session registered the listing answers
    200 with an empty list, and both legacy endpoints raise
    [AttributeError] where "No sessions available" is due; with a session
    registered they raise it as well, and the delegate is never called. *)
Theorem legacy_endpoints_raise_attribute_error :
  whatsapp_api_multisession.legacy_get_auth_status
    (Samples.answering Samples.no_sessions) []
  = (Raise (AttributeError (py "sessions")), [sessions_list_request])
  /\ whatsapp_api_multisession.legacy_get_messages
       (Samples.answering Samples.no_sessions) []
     = (Raise (AttributeError (py "sessions")), [sessions_list_request])
  /\ whatsapp_api_multisession.legacy_get_auth_status
       (Samples.answering Samples.one_session) []
     = (Raise (AttributeError (py "sessions")), [sessions_list_request])
  /\ whatsapp_api_multisession.legacy_get_messages
       (Samples.answering Samples.one_session) []
     = (Raise (AttributeError (py "sessions")), [sessions_list_request]).
Proof. repeat split. Qed.

(** * Further properties *)

(** ** What the normalisation accepts *)

Section PhoneMore.
Import whatsapp_api_multisession.

Lemma startswith_plus_clean (s : pystr) :
  (forall c, In c s -> strip_class c = false) ->
  startswith (py "+") s = false.
Proof.
  intros Hclean. destruct s as [|c s]; [reflexivity|].
  change (startswith (py "+") (c :: s)) with (N.eqb 0x2b c && true).
  rewrite andb_true_r. apply N.eqb_neq. intros <-.
  now specialize (Hclean _ (or_introl eq_refl)).
Qed.

Lemma startswith_00 (s : pystr) :
  startswith (py "00") s = true -> exists t, s = 0x30%N :: 0x30%N :: t.
Proof.
  destruct s as [|a [|b t]]; try discriminate.
  - change (startswith (py "00") [a]) with (N.eqb 0x30 a && false).
    now rewrite andb_false_r.
  - change (startswith (py "00") (a :: b :: t))
      with (N.eqb 0x30 a && (N.eqb 0x30 b && true)).
    rewrite andb_true_r, andb_true_iff, !N.eqb_eq. intros [<- <-]. eauto.
Qed.

(** The two ways the prefix is put: before the whole string, or in place of
    a leading [00]. *)
Lemma prefixed_cases (s : pystr) :
  (forall c, In c s -> strip_class c = false) ->
  (startswith (py "00") s = false /\ prefixed s = 0x2b%N :: s)
  \/ (exists t, s = 0x30%N :: 0x30%N :: t /\ prefixed s = 0x2b%N :: t).
Proof.
  intros Hclean. unfold prefixed. rewrite (startswith_plus_clean _ Hclean).
  destruct (startswith (py "00") s) eqn:Hzz; cbn [orb negb].
  - right. destruct (startswith_00 _ Hzz) as [t ->]. eauto.
  - left. auto.
Qed.

(** An input is accepted exactly when, separators removed, it is a digit
    1-9 followed by 1 to 14 digits, with or without [00] in front; the
    identifier returned is [+] and those digits. *)
Theorem validate_phone_number_accepts_iff (x y : pystr) :
  validate_phone_number x = Ok y <->
  exists d rest,
    y = 0x2b%N :: d :: rest
    /\ re_1_9 d = true
    /\ 1 <= List.length rest <= 14
    /\ forallb re_digit rest = true
    /\ (re_sub_strip x = d :: rest
        \/ re_sub_strip x = 0x30%N :: 0x30%N :: d :: rest).
Proof.
  split.
  - intros Hx.
    destruct (validate_phone_number_inv _ Hx)
      as (d & rest & -> & Hd & Hlen & Hdig & _ & _).
    exists d, rest. repeat split; auto; try lia.
    rewrite validate_phone_number_unfold in Hx.
    destruct (re_match_international _); [|discriminate].
    injection Hx as Hx.
    destruct (prefixed_cases _ (re_sub_strip_clean x))
      as [[_ Hp]|(t & Hs & Hp)]; rewrite Hp in Hx.
    + left. now injection Hx.
    + right. rewrite Hs. injection Hx as ->. reflexivity.
  - intros (d & rest & -> & Hd & Hlen & Hdig & [Hs|Hs]);
      rewrite validate_phone_number_unfold, Hs.
    + rewrite (@prefixed_leading_digit d rest Hd),
        (@re_match_international_intro d rest Hd Hlen Hdig).
      reflexivity.
    + change (prefixed (0x30%N :: 0x30%N :: d :: rest))
        with (0x2b%N :: d :: rest).
      rewrite (@re_match_international_intro d rest Hd Hlen Hdig).
      reflexivity.
Qed.

Lemma re_sub_strip_drop (a b : pystr) (c : N) :
  strip_class c = true -> re_sub_strip (a ++ c :: b) = re_sub_strip (a ++ b).
Proof.
  intros Hc. unfold re_sub_strip. rewrite !filter_app. simpl.
  now rewrite Hc.
Qed.

(** A separator, or a [+], counts for nothing wherever it stands. *)
Theorem validate_phone_number_ignores_separator (a b : pystr) (c : N) :
  strip_class c = true ->
  validate_phone_number (a ++ c :: b) = validate_phone_number (a ++ b).
Proof.
  intros Hc. now rewrite !validate_phone_number_unfold, (@re_sub_strip_drop a b c Hc).
Qed.

Lemma validate_phone_number_ignores_separator_witness :
  validate_phone_number (py "49+170" ++ 0x2b%N :: py "1234567")
  = validate_phone_number (py "49+170" ++ py "1234567")
  /\ validate_phone_number (py "49+170+1234567") = Ok (py "+491701234567").
Proof.
  split; [|reflexivity].
  apply (@validate_phone_number_ignores_separator
           (py "49+170") (py "1234567") 0x2b%N).
  reflexivity.
Defined.

(** Writing [00] in front changes nothing, unless the number itself already
    starts with [00]. *)
Theorem validate_phone_number_00_prefix (x : pystr) :
  startswith (py "00") (re_sub_strip x) = false ->
  validate_phone_number (py "00" ++ x) = validate_phone_number x.
Proof.
  intros Hzz. rewrite !validate_phone_number_unfold.
  change (re_sub_strip (py "00" ++ x)) with (0x30%N :: 0x30%N :: re_sub_strip x).
  change (prefixed (0x30%N :: 0x30%N :: re_sub_strip x))
    with (0x2b%N :: re_sub_strip x).
  destruct (prefixed_cases _ (re_sub_strip_clean x)) as [[_ Hp]|(t & Hs & _)].
  - now rewrite Hp.
  - rewrite Hs in Hzz. discriminate.
Qed.

Lemma validate_phone_number_00_prefix_witness :
  validate_phone_number (py "00" ++ py "44 123 456789")
  = validate_phone_number (py "44 123 456789")
  /\ validate_phone_number (py "44 123 456789") = Ok (py "+44123456789").
Proof.
  split; [|reflexivity].
  apply (@validate_phone_number_00_prefix (py "44 123 456789")). reflexivity.
Defined.

Lemma validate_phone_number_ascii_witness :
  canonical (py "+14155550100") = true.
Proof.
  apply (@validate_phone_number_ascii (py "+1 (415) 555-0100")).
  - intros c Hc. simpl in Hc.
    repeat (destruct Hc as [<-|Hc]; [reflexivity|]). contradiction.
  - reflexivity.
Defined.

End PhoneMore.

(** ** Order, totals and failures of the summaries *)

Lemma filter_filter_implied {A} (P Q : A -> bool) (l : list A) :
  (forall x, P x = true -> Q x = true) ->
  filter P (filter Q l) = filter P l.
Proof.
  intros HPQ. induction l as [|x l IH]; simpl; [reflexivity|].
  destruct (Q x) eqn:HQ; simpl; rewrite IH; [reflexivity|].
  destruct (P x) eqn:HP; [|reflexivity].
  rewrite (HPQ x HP) in HQ. discriminate.
Qed.

Lemma filter_filter_and {A} (P Q : A -> bool) (l : list A) :
  filter P (filter Q l) = filter (fun x => Q x && P x) l.
Proof.
  induction l as [|x l IH]; simpl; [reflexivity|].
  destruct (Q x); simpl; now rewrite IH.
Qed.

(** [k] is not among [keys]. *)
Local Abbreviation fresh_for keys :=
  (fun k : pystr => negb (existsb (fun k0 => pystr_eqb k0 k) keys)).

Lemma dict_get_keys {V} (k : pystr) (d : dict V) :
  existsb (fun k0 => pystr_eqb k0 k) (map fst d) = true <-> dict_get k d <> None.
Proof.
  induction d as [|[k0 v0] d IH]; simpl.
  - split; [discriminate | congruence].
  - destruct (pystr_eqb k0 k); simpl; [|exact IH].
    split; [discriminate | reflexivity].
Qed.

(** Assigning to a key keeps the order of the keys and puts a new key
    last. *)
Lemma dict_set_key_order {V} (k : pystr) (v : V) (d : dict V) :
  map fst (dict_set k v d)
  = if existsb (fun k0 => pystr_eqb k0 k) (map fst d)
    then map fst d else map fst d ++ [k].
Proof.
  induction d as [|[k0 v0] d IH]; simpl; [reflexivity|].
  destruct (pystr_eqb k0 k) eqn:E; simpl; [reflexivity|].
  rewrite IH. now destruct (existsb _ (map fst d)).
Qed.

Section SummaryOrder.

Variable Msg : Type.
Variable msg_chat : Msg -> pystr.
Variable msg_is_group : Msg -> bool.
Variable msg_timestamp : Msg -> pystr.
Variable msg_is_read : Msg -> bool.
Variable msg_is_from_me : Msg -> bool.
Variable msg_latest_text : Msg -> result (option pystr).

Lemma fresh_after_known (keys : list pystr) (k : pystr) (l : list pystr) :
  existsb (fun k0 => pystr_eqb k0 k) keys = true ->
  filter (fresh_for keys) (first_occurrences (k :: l))
  = filter (fresh_for keys) (first_occurrences l).
Proof.
  intros Hk. simpl. rewrite Hk. simpl.
  apply filter_filter_implied. intros x Hx.
  destruct (pystr_eqb x k) eqn:E; [|reflexivity].
  apply pystr_eqb_eq in E. subst x. rewrite Hk in Hx. discriminate.
Qed.

Lemma fresh_after_new (keys : list pystr) (k : pystr) (l : list pystr) :
  existsb (fun k0 => pystr_eqb k0 k) keys = false ->
  keys ++ filter (fresh_for keys) (first_occurrences (k :: l))
  = (keys ++ [k]) ++ filter (fresh_for (keys ++ [k])) (first_occurrences l).
Proof.
  intros Hk. simpl. rewrite Hk. simpl. rewrite <- app_assoc. simpl.
  do 2 f_equal. rewrite filter_filter_and. apply filter_ext. intros x.
  rewrite existsb_app. simpl. rewrite orb_false_r, negb_orb.
  rewrite andb_comm. f_equal. f_equal.
  destruct (pystr_eqb x k) eqn:E1, (pystr_eqb k x) eqn:E2; try reflexivity.
  - apply pystr_eqb_eq in E1. subst. now rewrite pystr_eqb_refl in E2.
  - apply pystr_eqb_eq in E2. subst. now rewrite pystr_eqb_refl in E1.
Qed.

(** The first loop files the chats in the order of their first message. *)
Lemma latest_loop_key_order (rest : list Msg) (chats chats' : dict ChatSummary) :
  latest_loop msg_chat msg_is_group msg_timestamp msg_latest_text rest chats
  = Ok chats' ->
  map fst chats'
  = map fst chats
    ++ filter (fresh_for (map fst chats)) (first_occurrences (map msg_chat rest)).
Proof.
  revert chats. induction rest as [|m rest IH]; intros chats.
  - simpl. intros [= <-]. now rewrite app_nil_r.
  - simpl latest_loop. unfold is_newer.
    destruct (dict_get (msg_chat m) chats) as [e0|] eqn:Hget.
    + assert (Hk : existsb (fun k0 => pystr_eqb k0 (msg_chat m)) (map fst chats) = true)
        by (apply dict_get_keys; congruence).
      change (map msg_chat (m :: rest)) with (msg_chat m :: map msg_chat rest).
      rewrite (fresh_after_known _ _ _ Hk).
      destruct (str_gt (msg_timestamp m) (latest_timestamp e0)); [|apply IH].
      destruct (new_entry msg_chat msg_is_group msg_timestamp msg_latest_text m)
        as [e|]; [|discriminate].
      simpl. intros Hloop. rewrite (IH _ Hloop), dict_set_key_order, Hk.
      reflexivity.
    + assert (Hk : existsb (fun k0 => pystr_eqb k0 (msg_chat m)) (map fst chats) = false).
      { destruct (existsb _ (map fst chats)) eqn:E; [|reflexivity].
        apply dict_get_keys in E. congruence. }
      change (map msg_chat (m :: rest)) with (msg_chat m :: map msg_chat rest).
      rewrite (fresh_after_new _ _ _ Hk).
      destruct (new_entry msg_chat msg_is_group msg_timestamp msg_latest_text m)
        as [e|]; [|discriminate].
      simpl. intros Hloop. rewrite (IH _ Hloop), dict_set_key_order, Hk.
      reflexivity.
Qed.

(** The second loop leaves the keys where they are. *)
Lemma unread_loop_key_order (msgs : list Msg) (chats chats' : dict ChatSummary) :
  unread_loop msg_chat msg_is_read msg_is_from_me msgs chats = Ok chats' ->
  map fst chats' = map fst chats.
Proof.
  revert chats. induction msgs as [|m msgs IH]; intros chats.
  - simpl. now intros [= <-].
  - simpl. destruct (counts_as_unread msg_is_read msg_is_from_me m); [|apply IH].
    unfold bump_unread.
    destruct (dict_get (msg_chat m) chats) as [e|] eqn:Hget; [|discriminate].
    simpl. intros Hloop. rewrite (IH _ Hloop), dict_set_key_order.
    replace (existsb _ (map fst chats)) with true; [reflexivity|].
    symmetry. apply dict_get_keys. congruence.
Qed.

Lemma keyed_by_chat_keys (d : dict ChatSummary) :
  keyed_by_chat d -> map chat_id (dict_values d) = map fst d.
Proof.
  unfold dict_values. induction 1 as [|[k v] d Hk _ IH]; simpl; [reflexivity|].
  simpl in Hk. now rewrite Hk, IH.
Qed.

(** The summaries come one per chat, in the order in which the chats first
    occur among the messages. *)
Theorem summarize_order (msgs : list Msg) (summaries : list ChatSummary) :
  summarize msg_chat msg_is_group msg_timestamp msg_is_read msg_is_from_me
            msg_latest_text msgs = Ok summaries ->
  map chat_id summaries = first_occurrences (map msg_chat msgs).
Proof.
  unfold summarize.
  destruct (latest_loop msg_chat msg_is_group msg_timestamp msg_latest_text msgs [])
    as [chats0|] eqn:H1; [|discriminate].
  simpl.
  destruct (unread_loop msg_chat msg_is_read msg_is_from_me msgs chats0)
    as [chats1|] eqn:H2; [|discriminate].
  simpl. intros [= <-].
  pose proof (latest_loop_inv msgs
                (latest_inv_nil msg_chat msg_is_group msg_timestamp msg_latest_text)
                H1) as (Hkey0 & _ & _).
  destruct (unread_loop_get msg_chat msg_is_read msg_is_from_me msgs Hkey0 H2)
    as [Hkey1 _].
  rewrite (keyed_by_chat_keys Hkey1), (unread_loop_key_order _ _ H2),
    (latest_loop_key_order _ _ H1).
  simpl. clear. induction (first_occurrences (map msg_chat msgs)) as [|k l IH];
    simpl; [reflexivity|]. now rewrite IH.
Qed.

End SummaryOrder.

Section SummaryTotals.

Variable Msg : Type.
Variable msg_chat : Msg -> pystr.
Variable msg_is_group : Msg -> bool.
Variable msg_timestamp : Msg -> pystr.
Variable msg_is_read : Msg -> bool.
Variable msg_is_from_me : Msg -> bool.
Variable msg_latest_text : Msg -> result (option pystr).

(** Raising one counter raises the total by one. *)
Lemma bump_unread_total (k : pystr) (chats chats1 : dict ChatSummary) :
  bump_unread k chats = Ok chats1 ->
  total_unread (dict_values chats1) = S (total_unread (dict_values chats)).
Proof.
  unfold bump_unread, total_unread, dict_values.
  destruct (dict_get k chats) as [e|] eqn:Hget; [|discriminate].
  intros [= <-]. revert Hget.
  induction chats as [|[k0 v0] d IH]; simpl; [discriminate|].
  destruct (pystr_eqb k0 k); simpl.
  - now intros [= ->].
  - intros Hget. rewrite (IH Hget). lia.
Qed.

Lemma unread_loop_total_count (msgs : list Msg) (chats chats' : dict ChatSummary) :
  unread_loop msg_chat msg_is_read msg_is_from_me msgs chats = Ok chats' ->
  total_unread (dict_values chats')
  = total_unread (dict_values chats)
    + List.length (filter (counts_as_unread msg_is_read msg_is_from_me) msgs).
Proof.
  revert chats. induction msgs as [|m msgs IH]; intros chats.
  - simpl. intros [= <-]. lia.
  - simpl. destruct (counts_as_unread msg_is_read msg_is_from_me m).
    + destruct (bump_unread (msg_chat m) chats) as [chats1|] eqn:Hbump;
        [|discriminate].
      simpl. intros Hloop. rewrite (IH _ Hloop), (bump_unread_total _ _ Hbump).
      lia.
    + apply IH.
Qed.

(** After the first loop every counter is at zero. *)
Lemma latest_loop_counts_zero (msgs : list Msg) (chats0 : dict ChatSummary) :
  latest_loop msg_chat msg_is_group msg_timestamp msg_latest_text msgs []
  = Ok chats0 ->
  total_unread (dict_values chats0) = 0.
Proof.
  intros H1.
  pose proof (latest_loop_inv msgs
                (latest_inv_nil msg_chat msg_is_group msg_timestamp msg_latest_text)
                H1) as (_ & Hzero & _).
  assert (Hnd : NoDup (map fst chats0)).
  { eapply latest_loop_nodup; [|exact H1]. constructor. }
  assert (Hall : forall kv, In kv chats0 -> unread_count (snd kv) = 0).
  { intros [k v] Hin. simpl. apply (Hzero k v). now apply dict_get_in. }
  clear - Hall. unfold total_unread, dict_values.
  induction chats0 as [|kv d IH]; simpl; [reflexivity|].
  rewrite (Hall kv (or_introl eq_refl)), IH; [reflexivity|].
  intros kv' Hin. apply Hall. now right.
Qed.

(** The unread counts add up to the number of messages that are neither
    read nor sent by the account itself. *)
Theorem summarize_total_unread (msgs : list Msg) (summaries : list ChatSummary) :
  summarize msg_chat msg_is_group msg_timestamp msg_is_read msg_is_from_me
            msg_latest_text msgs = Ok summaries ->
  total_unread summaries
  = List.length (filter (fun m => negb (msg_is_read m) && negb (msg_is_from_me m))
                        msgs).
Proof.
  unfold summarize.
  destruct (latest_loop msg_chat msg_is_group msg_timestamp msg_latest_text msgs [])
    as [chats0|] eqn:H1; [|discriminate].
  simpl.
  destruct (unread_loop msg_chat msg_is_read msg_is_from_me msgs chats0)
    as [chats1|] eqn:H2; [|discriminate].
  simpl. intros [= <-].
  now rewrite (unread_loop_total_count _ _ H2), (latest_loop_counts_zero _ H1).
Qed.

(** The first loop fails only where a latest text cannot be built. *)
Lemma latest_loop_raises (rest : list Msg) (chats : dict ChatSummary) (e : exn) :
  latest_loop msg_chat msg_is_group msg_timestamp msg_latest_text rest chats
  = Raise e ->
  exists m, In m rest /\ msg_latest_text m = Raise e.
Proof.
  revert chats. induction rest as [|m rest IH]; intros chats; simpl;
    [discriminate|].
  destruct (is_newer msg_chat msg_timestamp m chats).
  - unfold new_entry.
    destruct (msg_latest_text m) as [t|e'] eqn:Ht; simpl.
    + intros H. destruct (IH _ H) as (m' & Hin & Hm'). eauto.
    + intros [= <-]. eauto.
  - intros H. destruct (IH _ H) as (m' & Hin & Hm'). eauto.
Qed.

(** The aggregation fails only where a latest text cannot be built: the
    counting loop always finds the chat of a message in the dictionary. *)
Theorem summarize_raises (msgs : list Msg) (e : exn) :
  summarize msg_chat msg_is_group msg_timestamp msg_is_read msg_is_from_me
            msg_latest_text msgs = Raise e ->
  exists m, In m msgs /\ msg_latest_text m = Raise e.
Proof.
  unfold summarize.
  destruct (latest_loop msg_chat msg_is_group msg_timestamp msg_latest_text msgs [])
    as [chats0|e0] eqn:H1; simpl.
  - pose proof (latest_loop_inv msgs
                  (latest_inv_nil msg_chat msg_is_group msg_timestamp msg_latest_text)
                  H1) as (Hkey & _ & Hmem).
    simpl in Hmem.
    destruct (unread_loop_total msg_chat msg_is_read msg_is_from_me msgs Hkey Hmem)
      as [chats1 H2].
    rewrite H2. discriminate.
  - intros [= <-]. now apply latest_loop_raises with (chats := []).
Qed.

End SummaryTotals.

(** ** The summaries of the two files *)

(** In both files the chats are listed once each, in the order of their
    first message. *)
Theorem chat_summaries_order :
  (forall (msgs : list whatsapp_api.Message) summaries,
      whatsapp_api.chat_summaries msgs = Ok summaries ->
      map chat_id summaries
      = first_occurrences
          (map (fun m => whatsapp_api.chat (whatsapp_api.source m)) msgs))
  /\ (forall (msgs : list whatsapp_api_multisession.Message) summaries,
      whatsapp_api_multisession.chat_summaries msgs = Ok summaries ->
      map chat_id summaries
      = first_occurrences (map whatsapp_api_multisession.chat_id msgs)).
Proof.
  split; intros msgs summaries Hsum.
  - exact (summarize_order _ _ _ _ _ _ _ Hsum).
  - exact (summarize_order _ _ _ _ _ _ _ Hsum).
Qed.

Lemma chat_summaries_order_witness :
  map chat_id Samples.single_inbox_summaries
  = first_occurrences
      (map (fun m => whatsapp_api.chat (whatsapp_api.source m))
           Samples.single_inbox)
  /\ map chat_id Samples.single_inbox_summaries
     = first_occurrences
         (map whatsapp_api_multisession.chat_id Samples.multi_inbox).
Proof.
  split.
  - apply (proj1 chat_summaries_order Samples.single_inbox). reflexivity.
  - apply (proj2 chat_summaries_order Samples.multi_inbox). reflexivity.
Defined.

(** In both files the unread counts of the summaries add up to the number
    of messages that are neither read nor sent by the account itself. *)
Theorem chat_summaries_total_unread :
  (forall (msgs : list whatsapp_api.Message) summaries,
      whatsapp_api.chat_summaries msgs = Ok summaries ->
      total_unread summaries
      = List.length
          (filter (fun m => negb (whatsapp_api.is_read m)
                            && negb (whatsapp_api.is_from_me (whatsapp_api.source m)))
                  msgs))
  /\ (forall (msgs : list whatsapp_api_multisession.Message) summaries,
      whatsapp_api_multisession.chat_summaries msgs = Ok summaries ->
      total_unread summaries
      = List.length
          (filter (fun m => negb (whatsapp_api_multisession.is_read m)
                            && negb (whatsapp_api_multisession.is_from_me m))
                  msgs)).
Proof.
  split; intros msgs summaries Hsum.
  - exact (summarize_total_unread _ _ _ _ _ _ _ Hsum).
  - exact (summarize_total_unread _ _ _ _ _ _ _ Hsum).
Qed.

Lemma chat_summaries_total_unread_witness :
  total_unread Samples.single_inbox_summaries = 2.
Proof.
  apply (proj1 chat_summaries_total_unread Samples.single_inbox). reflexivity.
Defined.





Lemma chat_summaries_agree_on_text_witness :
  whatsapp_api.chat_summaries Samples.single_inbox
  = whatsapp_api_multisession.chat_summaries Samples.multi_inbox.
Proof.
  apply chat_summaries_agree_on_text.
  - repeat constructor.
  - intros m Hm. simpl in Hm.
    repeat (destruct Hm as [<-|Hm]; [do 3 eexists; reflexivity|]).
    contradiction.
Defined.

(** ** What every operation does with the Go service *)

(** Turns the tests on the status code met on a path into equations. *)
Ltac status_facts :=
  repeat match goal with
         | H : Z.eqb _ _ = true |- _ => apply Z.eqb_eq in H
         | H : Z.eqb _ _ = false |- _ => apply Z.eqb_neq in H
         end.

(** On a path whose log is [log ++ [req0]], identifies the request [req] of
    [Hlog] with [req0] and the reply [resp] of [Hrep] with the reply met on
    the path; closes the paths on which no request or no reply was had. *)
Ltac same_reply Hlog Hrep :=
  first
    [ exfalso; eapply log_not_extended; exact Hlog
    | apply app_inv_head in Hlog; injection Hlog as <-;
      match goal with
      | H : ?b ?l _ = _ |- _ =>
          let X := fresh in
          pose proof (eq_trans (eq_sym H) Hrep) as X;
          lazymatch type of X with
          | ?a = ?a => fail
          | _ => first [ discriminate X | injection X as -> ]
          end
      end ].

(** An operation sends one request to the Go service; an operation of
    [whatsapp_api_multisession.py] may also send none. *)
Theorem operations_send_one_request :
  (forall (op : whatsapp_api.operation) be log r log',
      whatsapp_api.run op be log = (r, log') ->
      exists req, log' = log ++ [req])
  /\ (forall (op : whatsapp_api_multisession.operation) be log r log',
      whatsapp_api_multisession.run op be log = (r, log') ->
      log' = log \/ exists req, log' = log ++ [req]).
Proof.
  split; intros op be log r log'.
  - destruct op; unfold_single; split_handler; intros [= <- <-]; eauto.
  - destruct op; unfold_multi; split_handler; intros [= <- <-]; eauto.
Qed.

Lemma operations_send_one_request_witness :
  (exists req, [sessions_list_request; single_probe]
               = [sessions_list_request] ++ [req])
  /\ ([sessions_list_request] = [sessions_list_request]
      \/ exists req, [sessions_list_request] = [sessions_list_request] ++ [req]).
Proof.
  split.
  - apply (proj1 operations_send_one_request whatsapp_api.op_get_auth_status
             Samples.down [sessions_list_request]
             (Raise (HTTPException 503 (py "Go service unavailable")))).
    reflexivity.
  - apply (proj2 operations_send_one_request
             (whatsapp_api_multisession.op_get_chats (py "abc"))
             Samples.down [sessions_list_request]
             (Raise (HTTPException 400
                       (py "Invalid international phone number format")))).
    reflexivity.
Defined.

(** An operation returns a value only when the Go service answered its
    request with status 200. *)
Theorem operations_succeed_on_200_only :
  (forall (op : whatsapp_api.operation) be log v log',
      whatsapp_api.run op be log = (Ok v, log') ->
      exists req response,
        log' = log ++ [req] /\ be log req = Replied response
        /\ status_code response = 200%Z)
  /\ (forall (op : whatsapp_api_multisession.operation) be log v log',
      whatsapp_api_multisession.run op be log = (Ok v, log') ->
      exists req response,
        log' = log ++ [req] /\ be log req = Replied response
        /\ status_code response = 200%Z).
Proof.
  split; intros op be log v log'.
  - destruct op; unfold_single; split_handler; intros H;
      first [ discriminate H
            | injection H as <- <-; status_facts; do 2 eexists;
              split; [reflexivity | split; eassumption] ].
  - destruct op; unfold_multi; split_handler; intros H;
      first [ discriminate H
            | injection H as <- <-; status_facts; do 2 eexists;
              split; [reflexivity | split; eassumption] ].
Qed.

Lemma operations_succeed_on_200_only_witness :
  exists req (response : Response whatsapp_api.Message),
    [single_pair_request Samples.pair_request]
    = [] ++ [req]
    /\ Samples.answering Samples.paired [] req = Replied response
    /\ status_code response = 200%Z.
Proof.
  apply (proj1 operations_succeed_on_200_only
           (whatsapp_api.op_pair_phone Samples.pair_request)
           (Samples.answering Samples.paired) []
           (Body Samples.pairing_code)).
  reflexivity.
Defined.

(** A status the operation does not know is answered with 500:
    [whatsapp_api.py] knows no status besides 200, 400, 401, 404 and 408,
    [whatsapp_api_multisession.py] none besides 200, 400 and 404, so that a
    401 of the Go service is a 500 there. *)
Theorem unknown_status_is_500 :
  (forall (op : whatsapp_api.operation) be log r log',
      whatsapp_api.run op be log = (r, log') ->
      forall req response,
        log' = log ++ [req] -> be log req = Replied response ->
        ~ In (status_code response) [200; 400; 401; 404; 408]%Z ->
        exists detail, r = Raise (HTTPException 500 detail))
  /\ (forall (op : whatsapp_api_multisession.operation) be log r log',
      whatsapp_api_multisession.run op be log = (r, log') ->
      forall req response,
        log' = log ++ [req] -> be log req = Replied response ->
        ~ In (status_code response) [200; 400; 404]%Z ->
        exists detail, r = Raise (HTTPException 500 detail)).
Proof.
  split; intros op be log r log'.
  - destruct op; unfold_single; split_handler;
      intros [= <- <-] req1 resp1 Hlog Hrep Hnot; same_reply Hlog Hrep;
        status_facts;
        first [ eexists; reflexivity | exfalso; simpl in Hnot; lia ].
  - destruct op; unfold_multi; split_handler;
      intros [= <- <-] req1 resp1 Hlog Hrep Hnot; same_reply Hlog Hrep;
        status_facts;
        first [ eexists; reflexivity | exfalso; simpl in Hnot; lia ].
Qed.

(** An identifier the normalisation refuses stops the operation with the
    400 of the normalisation before anything is sent. *)
Theorem invalid_identifier_sends_nothing
        (op : whatsapp_api_multisession.operation) (phone : pystr) (e : exn)
        (be : backend whatsapp_api_multisession.Message) (log : list Request) :
  given_phone op = Some phone ->
  whatsapp_api_multisession.validate_phone_number phone = Raise e ->
  whatsapp_api_multisession.run op be log
  = (Raise (HTTPException 400 (py "Invalid international phone number format")),
     log).
Proof.
  intros Hop Hbad.
  assert (He : e = HTTPException 400
                     (py "Invalid international phone number format")).
  { rewrite validate_phone_number_unfold in Hbad.
    destruct (whatsapp_api_multisession.re_match_international _);
      [discriminate | now injection Hbad]. }
  subst e.
  destruct op; try discriminate; simpl in Hop; injection Hop as <-;
    unfold_multi; run_gateway; rewrite Hbad; reflexivity.
Qed.

(** The operations that end in [return response.json()] return the decoded
    body of the answer as it is. *)
Theorem json_is_passed_through :
  (forall (op : whatsapp_api.operation) be log v log',
      single_returns_json op = true ->
      whatsapp_api.run op be log = (Ok v, log') ->
      exists req response data,
        log' = log ++ [req] /\ be log req = Replied response
        /\ json response = Some data /\ v = Body data)
  /\ (forall (op : whatsapp_api_multisession.operation) be log v log',
      multi_returns_json op = true ->
      whatsapp_api_multisession.run op be log = (Ok v, log') ->
      exists req response data,
        log' = log ++ [req] /\ be log req = Replied response
        /\ json response = Some data /\ v = Body data).
Proof.
  split; intros op be log v log' Hop.
  - destruct op; try discriminate Hop; clear Hop; unfold_single; split_handler;
      intros H;
      first [ discriminate H
            | injection H as <- <-; do 3 eexists;
              split; [reflexivity | split; [eassumption | split;
                [eassumption | reflexivity]]] ].
  - destruct op; try discriminate Hop; clear Hop; unfold_multi; split_handler;
      intros H;
      first [ discriminate H
            | injection H as <- <-; do 3 eexists;
              split; [reflexivity | split; [eassumption | split;
                [eassumption | reflexivity]]] ].
Qed.

(** Every operation with the identifier in its path answers a 404 of the
    Go service with a 404 that names the session. *)
Theorem session_404_is_not_found
        (op : whatsapp_api_multisession.operation)
        (be : backend whatsapp_api_multisession.Message) (log log' : list Request)
        (r : result (pyobj whatsapp_api_multisession.Message))
        (req1 : Request) (resp1 : Response whatsapp_api_multisession.Message) :
  session_scoped op = true ->
  whatsapp_api_multisession.run op be log = (r, log') ->
  log' = log ++ [req1] -> be log req1 = Replied resp1 ->
  status_code resp1 = 404%Z ->
  exists detail, r = Raise (HTTPException 404 detail)
                 /\ startswith (py "Session") detail = true.
Proof.
  intros Hop. revert r log'.
  destruct op; try discriminate Hop; clear Hop; unfold_multi; split_handler;
    intros r' log'' [= <- <-] Hlog Hrep Hs; same_reply Hlog Hrep; status_facts;
      first [ eexists; split; reflexivity | exfalso; lia ].
Qed.

(** The four message operations of [whatsapp_api.py] answer a 401 of the Go
    service with 401 "Not authenticated". *)
Theorem single_401_is_not_authenticated
        (op : whatsapp_api.operation)
        (be : backend whatsapp_api.Message) (log log' : list Request)
        (r : result (pyobj whatsapp_api.Message))
        (req1 : Request) (resp1 : Response whatsapp_api.Message) :
  needs_login op = true ->
  whatsapp_api.run op be log = (r, log') ->
  log' = log ++ [req1] -> be log req1 = Replied resp1 ->
  status_code resp1 = 401%Z ->
  r = Raise (HTTPException 401 (py "Not authenticated")).
Proof.
  intros Hop. revert r log'.
  destruct op; try discriminate Hop; clear Hop; unfold_single; split_handler;
    intros r' log'' [= <- <-] Hlog Hrep Hs; same_reply Hlog Hrep; status_facts;
      first [ reflexivity | exfalso; lia ].
Qed.

(** The Go service is addressed with the normalised identifier, never with
    the identifier as the client wrote it: an operation with the identifier
    in its path sends its request below [/sessions/<normalised>/], and
    [create_session] puts the normalised identifier in the body. *)
Theorem requests_carry_normalised_identifier :
  (forall (op : whatsapp_api_multisession.operation) phone p
          (be : backend whatsapp_api_multisession.Message) log r log',
      session_scoped op = true -> given_phone op = Some phone ->
      whatsapp_api_multisession.validate_phone_number phone = Ok p ->
      whatsapp_api_multisession.run op be log = (r, log') ->
      exists req suffix,
        log' = log ++ [req]
        /\ url req = GO_SERVICE_URL ++ py "/sessions/" ++ p ++ py "/" ++ suffix)
  /\ (forall request p (be : backend whatsapp_api_multisession.Message) log r log',
      whatsapp_api_multisession.validate_phone_number
        (whatsapp_api_multisession.create_phone_number request) = Ok p ->
      whatsapp_api_multisession.create_session request be log = (r, log') ->
      log' = log ++ [mkRequest POST (GO_SERVICE_URL ++ py "/sessions/create")
                               (Some [(py "phone_number", VStr p)]) None]).
Proof.
  split.
  - intros op phone p be log r log' Hop Hphone Hvalid.
    destruct op; try discriminate Hop; clear Hop; simpl in Hphone;
      injection Hphone as <-; unfold_multi; run_gateway; rewrite Hvalid;
        split_handler; intros [= <- <-]; do 2 eexists; split; reflexivity.
  - intros request p be log r log' Hvalid.
    unfold_multi. run_gateway. rewrite Hvalid.
    split_handler; intros [= <- <-]; reflexivity.
Qed.

(** The phone number in the body of a pairing request is not used: the
    pairing is asked for the identifier of the path. *)
Theorem pair_phone_ignores_body_number
        (phone : pystr) (r1 r2 : whatsapp_api_multisession.PairPhoneRequest)
        (be : backend whatsapp_api_multisession.Message) (log : list Request) :
  whatsapp_api_multisession.show_notification r1
  = whatsapp_api_multisession.show_notification r2 ->
  whatsapp_api_multisession.pair_phone phone (Some r1) be log
  = whatsapp_api_multisession.pair_phone phone (Some r2) be log.
Proof.
  intros Hshow. unfold whatsapp_api_multisession.pair_phone.
  cbv beta iota zeta. now rewrite Hshow.
Qed.

(** ** Routes *)

(** A request is served by a route of the table that matches it. *)
Lemma dispatch_some {E} (routes : list (Route E)) (m : http_method)
      (path : list pystr) (e : E) (ps : list (pystr * pystr)) :
  dispatch routes m path = Some (e, ps) ->
  exists r, In r routes /\ route_endpoint r = e /\ route_match r m path = Some ps.
Proof.
  induction routes as [|r routes IH]; simpl; [discriminate|].
  destruct (route_match r m path) as [ps0|] eqn:Hr.
  - intros [= <- <-]. exists r. auto.
  - intros H. destruct (IH H) as (r' & Hin & He & Hm). exists r'. auto.
Qed.

(** A route that matches keeps every later route from serving the
    request. *)
Lemma dispatch_before {E} (pre post : list (Route E)) (r : Route E)
      (m : http_method) (path : list pystr) (e : E)
      (ps0 ps : list (pystr * pystr)) :
  route_match r m path = Some ps0 ->
  dispatch (pre ++ r :: post) m path = Some (e, ps) ->
  exists r', In r' (pre ++ [r]) /\ route_endpoint r' = e.
Proof.
  intros Hr. induction pre as [|r0 pre IH]; simpl.
  - rewrite Hr. intros [= <- _]. exists r. auto.
  - destruct (route_match r0 m path) as [ps1|].
    + intros [= <- _]. exists r0. auto.
    + intros H. destruct (IH H) as (r' & Hin & He). exists r'. auto.
Qed.

(** When no earlier route matches, the route that does serves the
    request. *)
Lemma dispatch_first_match {E} (pre post : list (Route E)) (r : Route E)
      (m : http_method) (path : list pystr) (ps : list (pystr * pystr)) :
  Forall (fun r' => route_match r' m path = None) pre ->
  route_match r m path = Some ps ->
  dispatch (pre ++ r :: post) m path = Some (route_endpoint r, ps).
Proof.
  intros Hpre Hr. induction Hpre as [|r0 pre H0 _ IH]; simpl.
  - now rewrite Hr.
  - now rewrite H0.
Qed.

(** A pattern matches only paths with as many segments as it has. *)
Lemma match_segments_length (pattern : list segment) (path : list pystr)
      (ps : list (pystr * pystr)) :
  match_segments pattern path = Some ps ->
  List.length pattern = List.length path.
Proof.
  revert path ps.
  induction pattern as [|[s|name] pattern IH]; intros [|x path] ps;
    try discriminate; try reflexivity.
  - cbn [match_segments].
    destruct pattern as [|sg pattern], path as [|y path];
      try (destruct (pystr_eqb x s); [|discriminate]; intros H;
           apply IH in H; simpl in *; lia).
    intros _. reflexivity.
  - cbn [match_segments]. destruct x as [|c x]; [discriminate|].
    destruct (match_segments pattern path) as [ps'|] eqn:Hm; [|discriminate].
    intros _. apply IH in Hm. simpl. lia.
Qed.

(** Whatever the route of [get_unread_count] matches, the route of
    [get_chat_messages], declared before it, matches too. *)
Lemma unread_count_path_is_chat_path (m : http_method) (path : list pystr)
      (ps : list (pystr * pystr)) :
  route_match (session_route GET [Lit (py "messages"); Lit (py "unread-count")]
                             m_get_unread_count) m path = Some ps ->
  exists ps',
    route_match (session_route GET [Lit (py "messages"); Param (py "chat_id")]
                               m_get_chat_messages) m path = Some ps'.
Proof.
  unfold route_match, session_route. cbn [route_method route_pattern].
  destruct (http_method_eqb GET m); [|discriminate].
  destruct path as [|a [|b [|c [|d [|x rest]]]]]; cbn -[pystr_eqb py];
    try discriminate;
    destruct (pystr_eqb a (py "sessions")); try discriminate;
    destruct b as [|b0 b]; try discriminate;
    cbn -[pystr_eqb py];
    destruct (pystr_eqb c (py "messages")); try discriminate.
  - destruct d as [|d0 d]; [vm_compute; discriminate|].
    cbn -[pystr_eqb py]. eauto.
  - cbn -[pystr_eqb py].
    destruct (pystr_eqb d (py "unread-count")); discriminate.
Qed.

(** No request reaches [get_unread_count]: its path
    [/sessions/{phone}/messages/unread-count] is served by
    [get_chat_messages], declared earlier, with ["unread-count"] as the
    chat. *)
Theorem unread_count_route_is_shadowed :
  (forall m path ps,
      dispatch multi_routes m path <> Some (m_get_unread_count, ps))
  /\ (forall phone, phone <> [] ->
      dispatch multi_routes GET
               [py "sessions"; phone; py "messages"; py "unread-count"]
      = Some (m_get_chat_messages,
              [(py "phone", phone); (py "chat_id", py "unread-count")])).
Proof.
  split.
  - intros m path ps H.
    destruct (dispatch_some _ _ _ H) as (r & Hin & He & Hm).
    simpl in Hin.
    repeat (destruct Hin as [<-|Hin]; [try discriminate He|]);
      [|contradiction].
    destruct (unread_count_path_is_chat_path _ _ Hm) as [ps' Hchat].
    change multi_routes
      with (firstn 12 multi_routes
              ++ session_route GET [Lit (py "messages"); Param (py "chat_id")]
                               m_get_chat_messages
              :: skipn 13 multi_routes) in H.
    destruct (dispatch_before _ _ _ _ _ Hchat H) as (r' & Hin' & He').
    simpl in Hin'.
    repeat (destruct Hin' as [<-|Hin']; [discriminate He'|]).
    contradiction.
  - intros [|c phone] Hne; [congruence|].
    change multi_routes
      with (firstn 12 multi_routes
              ++ session_route GET [Lit (py "messages"); Param (py "chat_id")]
                               m_get_chat_messages
              :: skipn 13 multi_routes).
    apply dispatch_first_match; [|reflexivity].
    repeat constructor;
      first [ reflexivity
            | destruct (route_match _ _ _) as [ps|] eqn:Hm; [|reflexivity];
              unfold route_match, session_route in Hm;
              cbn [route_method route_pattern http_method_eqb] in Hm;
              apply match_segments_length in Hm; discriminate Hm ].
Qed.

(** Every route of [whatsapp_api.py] serves some request, and so does every
    route of [whatsapp_api_multisession.py] but the one of
    [get_unread_count]. *)
Theorem other_routes_are_reachable :
  (forall e : single_endpoint,
      exists m path ps, dispatch single_routes m path = Some (e, ps))
  /\ (forall e : multi_endpoint, e <> m_get_unread_count ->
      exists m path ps, dispatch multi_routes m path = Some (e, ps)).
Proof.
  split.
  - intros e. destruct e;
      [ exists GET, [py ""] | exists GET, [py "health"]
      | exists GET, [py "auth"; py "qr"] | exists GET, [py "auth"; py "status"]
      | exists POST, [py "auth"; py "logout"]
      | exists POST, [py "auth"; py "pair-phone"]
      | exists GET, [py "messages"] | exists GET, [py "messages"; py "a"]
      | exists POST, [py "messages"; py "read-status"]
      | exists GET, [py "chats"] ];
      eexists; reflexivity.
  - intros e He. pose (p := Cases.normal_phone). destruct e;
      [ exists GET, [py ""] | exists GET, [py "health"]
      | exists POST, [py "sessions"; py "create"]
      | exists GET, [py "sessions"; py "list"]
      | exists GET, [py "sessions"; p; py "status"]
      | exists POST, [py "sessions"; p; py "connect"]
      | exists POST, [py "sessions"; p; py "disconnect"]
      | exists DELETE, [py "sessions"; p]
      | exists GET, [py "sessions"; p; py "auth"; py "qr"]
      | exists GET, [py "sessions"; p; py "auth"; py "status"]
      | exists POST, [py "sessions"; p; py "auth"; py "pair-phone"]
      | exists GET, [py "sessions"; p; py "messages"]
      | exists GET, [py "sessions"; p; py "messages"; py "a"]
      | exists POST, [py "sessions"; p; py "messages"; py "read-status"]
      | contradiction
      | exists GET, [py "sessions"; p; py "chats"]
      | exists GET, [py "auth"; py "status"]
      | exists GET, [py "messages"] ];
      eexists; reflexivity.
Qed.

(** ** Instances *)

Lemma unknown_status_is_500_witness :
  (exists detail,
      @Raise (pyobj whatsapp_api.Message)
             (HTTPException 500 (py "Failed to logout"))
      = Raise (HTTPException 500 detail))
  /\ (exists detail,
         @Raise (pyobj whatsapp_api_multisession.Message)
                (HTTPException 500 (py "Failed to get messages"))
         = Raise (HTTPException 500 detail)).
Proof.
  split.
  - apply (proj1 unknown_status_is_500 whatsapp_api.op_logout
             (Samples.answering Cases.teapot) [] _
             [mkRequest POST (GO_SERVICE_URL ++ py "/auth/logout") None None]
             eq_refl
             (mkRequest POST (GO_SERVICE_URL ++ py "/auth/logout") None None)
             Cases.teapot eq_refl eq_refl).
    simpl. intuition discriminate.
  - apply (proj2 unknown_status_is_500
             (whatsapp_api_multisession.op_get_messages Cases.written_phone 50)
             (Samples.answering Cases.unauthorized) [] _
             [mkRequest GET
                (GO_SERVICE_URL ++ py "/sessions/" ++ Cases.normal_phone
                 ++ py "/messages")
                None (Some [(py "limit", VInt 50)])]
             eq_refl
             (mkRequest GET
                (GO_SERVICE_URL ++ py "/sessions/" ++ Cases.normal_phone
                 ++ py "/messages")
                None (Some [(py "limit", VInt 50)]))
             Cases.unauthorized eq_refl eq_refl).
    simpl. intuition discriminate.
Defined.

Lemma invalid_identifier_sends_nothing_witness :
  whatsapp_api_multisession.run
    (whatsapp_api_multisession.op_get_chats (py "abc"))
    (Samples.answering Samples.paired) [sessions_list_request]
  = (Raise (HTTPException 400 (py "Invalid international phone number format")),
     [sessions_list_request]).
Proof.
  apply (@invalid_identifier_sends_nothing
           (whatsapp_api_multisession.op_get_chats (py "abc")) (py "abc")
           (HTTPException 400 (py "Invalid international phone number format")));
    reflexivity.
Defined.

Lemma json_is_passed_through_witness :
  (exists req (response : Response whatsapp_api.Message) data,
      [single_pair_request Samples.pair_request] = [] ++ [req]
      /\ Samples.answering Samples.paired [] req = Replied response
      /\ json response = Some data
      /\ Body Samples.pairing_code = Body data)
  /\ (exists req (response : Response whatsapp_api_multisession.Message) data,
         [multi_pair_request Cases.normal_phone None] = [] ++ [req]
         /\ Samples.answering Samples.paired [] req = Replied response
         /\ json response = Some data
         /\ Body Samples.pairing_code = Body data).
Proof.
  split.
  - apply (proj1 json_is_passed_through
             (whatsapp_api.op_pair_phone Samples.pair_request)
             (Samples.answering Samples.paired) []);
      reflexivity.
  - apply (proj2 json_is_passed_through
             (whatsapp_api_multisession.op_pair_phone Cases.written_phone None)
             (Samples.answering Samples.paired) []);
      reflexivity.
Defined.

Lemma session_404_is_not_found_witness :
  exists detail,
    @Raise (pyobj whatsapp_api_multisession.Message)
           (HTTPException 404 (py "Session or chat not found"))
    = Raise (HTTPException 404 detail)
    /\ startswith (py "Session") detail = true.
Proof.
  apply (@session_404_is_not_found
           (whatsapp_api_multisession.op_get_chat_messages
              Cases.written_phone (py "a@s.whatsapp.net") 50)
           (Samples.answering Samples.not_found) []
           [mkRequest GET
              (GO_SERVICE_URL ++ py "/sessions/" ++ Cases.normal_phone
               ++ py "/messages/" ++ py "a@s.whatsapp.net")
              None (Some [(py "limit", VInt 50)])]
           _
           (mkRequest GET
              (GO_SERVICE_URL ++ py "/sessions/" ++ Cases.normal_phone
               ++ py "/messages/" ++ py "a@s.whatsapp.net")
              None (Some [(py "limit", VInt 50)]))
           Samples.not_found);
    reflexivity.
Defined.

Lemma single_401_is_not_authenticated_witness :
  fst (whatsapp_api.run (whatsapp_api.op_update_read_status Cases.read_status)
         (Samples.answering Cases.unauthorized) [])
  = Raise (HTTPException 401 (py "Not authenticated")).
Proof.
  apply (@single_401_is_not_authenticated
           (whatsapp_api.op_update_read_status Cases.read_status)
           (Samples.answering Cases.unauthorized) []
           [mkRequest POST (GO_SERVICE_URL ++ py "/messages/read-status")
                      (Some (whatsapp_api.ReadStatusUpdate_dict Cases.read_status))
                      None]
           _
           (mkRequest POST (GO_SERVICE_URL ++ py "/messages/read-status")
                      (Some (whatsapp_api.ReadStatusUpdate_dict Cases.read_status))
                      None)
           Cases.unauthorized);
    reflexivity.
Defined.

Lemma requests_carry_normalised_identifier_witness :
  (exists req suffix,
      [req] = [] ++ [req]
      /\ url req = GO_SERVICE_URL ++ py "/sessions/" ++ Cases.normal_phone
                   ++ py "/" ++ suffix)
  /\ [mkRequest POST (GO_SERVICE_URL ++ py "/sessions/create")
                (Some [(py "phone_number", VStr Cases.normal_phone)]) None]
     = [] ++ [mkRequest POST (GO_SERVICE_URL ++ py "/sessions/create")
                        (Some [(py "phone_number", VStr Cases.normal_phone)]) None].
Proof.
  split.
  - destruct (proj1 requests_carry_normalised_identifier
                (whatsapp_api_multisession.op_connect_session Cases.written_phone)
                Cases.written_phone Cases.normal_phone
                Samples.down [] _ _ eq_refl eq_refl eq_refl eq_refl)
      as (req & suffix & _ & Hurl).
    exists req, suffix. split; [reflexivity | exact Hurl].
  - apply (proj2 requests_carry_normalised_identifier
             (whatsapp_api_multisession.mkCreateSessionRequest Cases.written_phone)
             Cases.normal_phone Samples.down []
             (Raise (HTTPException 503 (py "Go service unavailable"))));
      reflexivity.
Defined.

Lemma pair_phone_ignores_body_number_witness :
  whatsapp_api_multisession.pair_phone Cases.written_phone (Some Cases.pair_own)
    (Samples.answering Samples.paired) []
  = whatsapp_api_multisession.pair_phone Cases.written_phone (Some Cases.pair_other)
      (Samples.answering Samples.paired) [].
Proof.
  apply (@pair_phone_ignores_body_number Cases.written_phone
           Cases.pair_own Cases.pair_other).
  reflexivity.
Defined.

Lemma unread_count_route_is_shadowed_witness :
  dispatch multi_routes GET
           [py "sessions"; Cases.normal_phone; py "messages"; py "unread-count"]
  = Some (m_get_chat_messages,
          [(py "phone", Cases.normal_phone); (py "chat_id", py "unread-count")]).
Proof.
  apply (proj2 unread_count_route_is_shadowed Cases.normal_phone). discriminate.
Defined.

Lemma other_routes_are_reachable_witness :
  exists m path ps, dispatch multi_routes m path = Some (m_delete_session, ps).
Proof.
  apply (proj2 other_routes_are_reachable m_delete_session). discriminate.
Defined.
